(** * Metrics aggregation and streaming core of the monitoring dashboard

  A shallow embedding of the dashboard server (the large single-file
  server with [getSnapshot], [cpuUsage], [getHealthStatus],
  [cleanupOldRequests] and the [http.createServer] handler) and of the
  older [src/server.js] variant of [cpuUsage].

  Numbers.  JavaScript numbers are doubles.  Counters, tick counts and
  millisecond timestamps are integers and are modelled as [Z], which is
  exact below 2^53.  A quotient or product of doubles is modelled by its
  exact rational value in [Q]; the double the code computes differs from
  it by a relative error of a few 2^-53.  That difference shows only when
  the value is rounded to digits and lies at a rounding tie (or within
  that error of one): 23 errors in 80 requests give the double
  28.749999999999996, printed 28.7, where the exact 28.75 rounds to 28.8.
  Every statement about printed digits is therefore made through
  [roundsTo], which allows either neighbour at such a tie, or carries the
  hypothesis that there is no tie; divisions by powers of two and
  [Math.round] of a quotient of two integers are exact. *)

From Stdlib Require Import ZArith QArith Qround Qabs Lqa Lia List String.
From stdpp Require Import base gmap sets list strings pretty.

Local Open Scope Z_scope.

(** ** JavaScript numeric helpers *)

Module JS.

(** [Math.round x]: the integer nearest to [x], ties towards +infinity. *)
Definition Math_round (x : Q) : Z := Qfloor (x + (1 # 2))%Q.

(** [x.toFixed(d)]: the decimal with [d] fraction digits nearest to [x],
    the larger one on a tie, computed on the magnitude with the sign put
    back in front.  The resulting string is represented by its scaled
    integer: [toFixed 1 x = 667] stands for the string 66.7. *)
Definition toFixed (d : nat) (x : Q) : Z :=
  let scale := inject_Z (10 ^ Z.of_nat d) in
  if Qle_bool 0 x then Qfloor (x * scale + (1 # 2))%Q
  else - Qfloor ((- x) * scale + (1 # 2))%Q.

(** The number denoted by the string [toFixed d x] (what [parseFloat]
    gives back). *)
Definition fixedValue (d : nat) (n : Z) : Q :=
  (inject_Z n / inject_Z (10 ^ Z.of_nat d))%Q.

(** A number that may be [Infinity] (the initial [minResponseTime]). *)
Inductive ext : Type :=
| Fin (z : Z)
| PInf.

(** [Math.min(m, e)] for a possibly infinite [m] and a finite [e]. *)
Definition Math_min (m : ext) (e : Z) : ext :=
  match m with
  | PInf => Fin e
  | Fin z => Fin (Z.min z e)
  end.

(** [m <= x] on the extended numbers. *)
Definition ext_le (m : ext) (x : Z) : Prop :=
  match m with
  | PInf => False
  | Fin z => z <= x
  end.

(** Strict comparison of doubles, [a > b]. *)
Definition gt (a b : Q) : bool := negb (Qle_bool a b).

End JS.

(** ** The dashboard server *)

Module Dashboard.
Import JS.

(** One entry of [os.cpus()]: only the [times] breakdown is read. *)
Record CpuTimes : Type := mkTimes {
  user : Z; nice : Z; sys : Z; idle : Z; irq : Z }.

Record Cpu : Type := mkCpu { times : CpuTimes }.

Definition ticks (t : CpuTimes) : Z :=
  user t + sys t + idle t + nice t + irq t.

(** [const pct = (a, b) => b ? ((a / b) * 100).toFixed(1) : 0]: either
    the number 0 or a one-decimal string, kept as its number of tenths.
    The product is taken at its exact value: at a rounding tie the double
    of the code can print the other neighbour ([pct(23, 80)] is 28.7 in
    the code, 288 tenths here), which [roundsTo] accounts for. *)
Inductive pctResult : Type :=
| PctZero
| PctFixed (tenths : Z).

Definition pct (a b : Z) : pctResult :=
  if b =? 0 then PctZero
  else PctFixed (toFixed 1 ((inject_Z a / inject_Z b) * 100)%Q).

(** The numeric value of a [pct] result ([parseFloat], or the implicit
    conversion the page does when it prints it). *)
Definition pctValue (p : pctResult) : Q :=
  match p with
  | PctZero => 0%Q
  | PctFixed n => fixedValue 1 n
  end.

(** The body of the [cpus.forEach((c, i) => ...)] loop of [cpuUsage]:
    [acc] is the pair ([idle], [total]); the previous reading of core [i]
    is [lastCpu[i]?.times || c.times]. *)
Fixpoint cpuForEach (lastCpu : list Cpu) (i : nat) (cpus : list Cpu)
    (acc : Z * Z) : Z * Z :=
  match cpus with
  | [] => acc
  | c :: rest =>
      let prev := match lastCpu !! i with
                  | Some p => times p
                  | None => times c
                  end in
      let curr := times c in
      let idleDiff := idle curr - idle prev in
      let totalDiff := ticks curr - ticks prev in
      cpuForEach lastCpu (S i) rest (acc.1 + idleDiff, acc.2 + totalDiff)
  end.

(** [Math.round((1 - idle / total) * 100)], of the exact value: at a
    rounding tie the double of the code can give the other neighbour (17
    idle ticks of 40 give 57 in the code, 58 here), which [roundsTo]
    accounts for. *)
Definition busyPercent (idle total : Z) : Z :=
  Math_round ((1 - inject_Z idle / inject_Z total) * 100)%Q.

(** [cpuUsage()]: the reading [cpus] is what [os.cpus()] returns at the
    call; the result is the percentage and the new [lastCpu]. *)
Definition cpuUsage (lastCpu cpus : list Cpu) : Z * list Cpu :=
  let '(idle, total) := cpuForEach lastCpu 0 cpus (0, 0) in
  (if 0 <? total then busyPercent idle total else 0, cpus).

Inductive Health : Type := CRITICAL | WARNING | HEALTHY.

(** [getHealthStatus(cpu, memPct, diskPct)]. *)
Definition getHealthStatus (cpu memPct diskPct : Q) : Health * string :=
  if gt cpu 90 || gt memPct 90 || gt diskPct 95
  then (CRITICAL, "#ef4444")
  else if gt cpu 70 || gt memPct 70 || gt diskPct 80
  then (WARNING, "#f59e0b")
  else (HEALTHY, "#22c55e").

(** [arr.filter(t => now - t < w)]. *)
Definition prune (w now : Z) (arr : list Z) : list Z :=
  List.filter (fun t => now - t <? w) arr.


(** *** The module-level metrics state *)

Record Metrics : Type := mkMetrics {
  lastCpu : list Cpu;
  requestCount : Z;
  totalResponseTime : Z;
  lastRequestTime : option Z;
  minResponseTime : ext;
  maxResponseTime : Z;
  errorCount : Z;
  activeConnections : Z;
  totalBytesReceived : Z;
  totalBytesSent : Z;
  statusCodeCounts : gmap string Z;
  requestsPerEndpoint : gmap string Z;
  lastMinuteRequests : list Z;
  lastHourRequests : list Z }.

(** The state right after the module is loaded; [cpus0] is the reading
    [os.cpus()] returns at that moment ([let lastCpu = os.cpus()]). *)
Definition initial (cpus0 : list Cpu) : Metrics :=
  {| lastCpu := cpus0; requestCount := 0; totalResponseTime := 0;
     lastRequestTime := None; minResponseTime := PInf;
     maxResponseTime := 0; errorCount := 0; activeConnections := 0;
     totalBytesReceived := 0; totalBytesSent := 0;
     statusCodeCounts := ∅; requestsPerEndpoint := ∅;
     lastMinuteRequests := []; lastHourRequests := [] |}.

(** [obj[k] = (obj[k] || 0) + 1]. *)
Definition bump (k : string) (obj : gmap string Z) : gmap string Z :=
  <[k := default 0 (obj !! k) + 1]> obj.

(** Assignments to single module-level variables. *)
Definition setLastCpu (v : list Cpu) (m : Metrics) : Metrics :=
  mkMetrics v (requestCount m) (totalResponseTime m) (lastRequestTime m)
    (minResponseTime m) (maxResponseTime m) (errorCount m)
    (activeConnections m) (totalBytesReceived m) (totalBytesSent m)
    (statusCodeCounts m) (requestsPerEndpoint m) (lastMinuteRequests m)
    (lastHourRequests m).

Definition setWindows (minute hour : list Z) (m : Metrics) : Metrics :=
  mkMetrics (lastCpu m) (requestCount m) (totalResponseTime m)
    (lastRequestTime m) (minResponseTime m) (maxResponseTime m)
    (errorCount m) (activeConnections m) (totalBytesReceived m)
    (totalBytesSent m) (statusCodeCounts m) (requestsPerEndpoint m)
    minute hour.

Definition setRequests (count : Z) (last : option Z) (m : Metrics) : Metrics :=
  mkMetrics (lastCpu m) count (totalResponseTime m) last
    (minResponseTime m) (maxResponseTime m) (errorCount m)
    (activeConnections m) (totalBytesReceived m) (totalBytesSent m)
    (statusCodeCounts m) (requestsPerEndpoint m) (lastMinuteRequests m)
    (lastHourRequests m).

Definition setResponseTimes (total : Z) (lo : ext) (hi : Z) (m : Metrics)
    : Metrics :=
  mkMetrics (lastCpu m) (requestCount m) total (lastRequestTime m) lo hi
    (errorCount m) (activeConnections m) (totalBytesReceived m)
    (totalBytesSent m) (statusCodeCounts m) (requestsPerEndpoint m)
    (lastMinuteRequests m) (lastHourRequests m).

Definition setErrorCount (v : Z) (m : Metrics) : Metrics :=
  mkMetrics (lastCpu m) (requestCount m) (totalResponseTime m)
    (lastRequestTime m) (minResponseTime m) (maxResponseTime m) v
    (activeConnections m) (totalBytesReceived m) (totalBytesSent m)
    (statusCodeCounts m) (requestsPerEndpoint m) (lastMinuteRequests m)
    (lastHourRequests m).

Definition setActiveConnections (v : Z) (m : Metrics) : Metrics :=
  mkMetrics (lastCpu m) (requestCount m) (totalResponseTime m)
    (lastRequestTime m) (minResponseTime m) (maxResponseTime m)
    (errorCount m) v (totalBytesReceived m) (totalBytesSent m)
    (statusCodeCounts m) (requestsPerEndpoint m) (lastMinuteRequests m)
    (lastHourRequests m).

Definition setBytes (received sent : Z) (m : Metrics) : Metrics :=
  mkMetrics (lastCpu m) (requestCount m) (totalResponseTime m)
    (lastRequestTime m) (minResponseTime m) (maxResponseTime m)
    (errorCount m) (activeConnections m) received sent
    (statusCodeCounts m) (requestsPerEndpoint m) (lastMinuteRequests m)
    (lastHourRequests m).

Definition setHistograms (codes endpoints : gmap string Z) (m : Metrics)
    : Metrics :=
  mkMetrics (lastCpu m) (requestCount m) (totalResponseTime m)
    (lastRequestTime m) (minResponseTime m) (maxResponseTime m)
    (errorCount m) (activeConnections m) (totalBytesReceived m)
    (totalBytesSent m) codes endpoints (lastMinuteRequests m)
    (lastHourRequests m).

(** [cleanupOldRequests()], with [now] the value of [Date.now()]. *)
Definition cleanupOldRequests (now : Z) (m : Metrics) : Metrics :=
  setWindows (prune 60000 now (lastMinuteRequests m))
             (prune 3600000 now (lastHourRequests m)) m.

(** *** The snapshot *)

(** What the host and the clock answer during one [getSnapshot()] call. *)
Record Env : Type := mkEnv {
  cleanupNow : Z;          (* Date.now() inside cleanupOldRequests *)
  cpus : list Cpu;         (* os.cpus() inside cpuUsage *)
  uptime : Q;              (* process.uptime(), in seconds *)
  sysMemTotal : Z;         (* os.totalmem() *)
  sysMemFree : Z;          (* os.freemem() *)
  diskPercent : Z;         (* diskUsage().percent *)
  stampNow : Z }.          (* Date.now() for the timestamp field *)

(** The fields of the snapshot object that the metrics core computes; the
    host description fields (hostname, heap statistics, network, ...) are
    left out. *)
Module Snap.
Record t : Type := mk {
  timestamp : Z;
  health : Health;
  healthColor : string;
  cpu : Z;
  sysMemPercent : Q;
  diskPercent : Z;
  processUptimeSec : Z;
  totalRequests : Z;
  rpm : Z;
  rps : Z;                 (* toFixed(2), in hundredths *)
  rph : Z;
  avgLifetimeRpm : Z;      (* toFixed(2), in hundredths *)
  avgResponseMs : Z;
  minResponseMs : Z;
  maxResponseMs : Z;
  totalResponseTime : Z;
  errorCount : Z;
  successCount : Z;
  errorRate : pctResult;
  successRate : pctResult;
  activeConnections : Z;
  bytesReceivedRaw : Z;
  bytesSentRaw : Z;
  statusCodes : gmap string Z;
  endpoints : gmap string Z;
  lastRequest : option Z }.
End Snap.

(** [getSnapshot()]: the snapshot and the state it leaves behind (the
    windows pruned, [lastCpu] replaced by the new reading).  The quotients
    behind [rps], [avgLifetimeRpm] and the two rates are taken at their
    exact values (see [pct]): 1 request in 800 seconds prints 0.07 in the
    code, 8 hundredths here. *)
Definition getSnapshot (e : Env) (m0 : Metrics) : Snap.t * Metrics :=
  let m := cleanupOldRequests (cleanupNow e) m0 in
  let sysMemUsed := sysMemTotal e - sysMemFree e in
  let '(cpu, cpus') := cpuUsage (lastCpu m) (cpus e) in
  let memPct := pctValue (pct sysMemUsed (sysMemTotal e)) in
  let health :=
    getHealthStatus (inject_Z cpu) memPct (inject_Z (diskPercent e)) in
  let minutes := (uptime e / 60)%Q in
  ({| Snap.timestamp := stampNow e;
      Snap.health := health.1;
      Snap.healthColor := health.2;
      Snap.cpu := cpu;
      Snap.sysMemPercent := memPct;
      Snap.diskPercent := diskPercent e;
      Snap.processUptimeSec := Qfloor (uptime e);
      Snap.totalRequests := requestCount m;
      Snap.rpm := Z.of_nat (length (lastMinuteRequests m));
      Snap.rps :=
        toFixed 2 (inject_Z (Z.of_nat (length (lastMinuteRequests m))) / 60)%Q;
      Snap.rph := Z.of_nat (length (lastHourRequests m));
      Snap.avgLifetimeRpm :=
        toFixed 2 (inject_Z (requestCount m)
                   / (if Qeq_bool minutes 0 then 1 else minutes))%Q;
      Snap.avgResponseMs :=
        if requestCount m =? 0 then 0
        else Math_round
               (inject_Z (totalResponseTime m) / inject_Z (requestCount m))%Q;
      Snap.minResponseMs :=
        match minResponseTime m with PInf => 0 | Fin z => z end;
      Snap.maxResponseMs := maxResponseTime m;
      Snap.totalResponseTime := totalResponseTime m;
      Snap.errorCount := errorCount m;
      Snap.successCount := requestCount m - errorCount m;
      Snap.errorRate := pct (errorCount m) (requestCount m);
      Snap.successRate := pct (requestCount m - errorCount m) (requestCount m);
      Snap.activeConnections := activeConnections m;
      Snap.bytesReceivedRaw := totalBytesReceived m;
      Snap.bytesSentRaw := totalBytesSent m;
      Snap.statusCodes := statusCodeCounts m;
      Snap.endpoints := requestsPerEndpoint m;
      Snap.lastRequest := lastRequestTime m |},
   setLastCpu cpus' m).

(** *** The request handler *)

(** One incoming request together with what the clock and the host answer
    while it is handled: the four [Date.now()]/[new Date()] readings of the
    prologue, the answers used by a [getSnapshot()] call on the routes that
    make one, the byte length of the response body ([Buffer.byteLength])
    and the final [Date.now()]. *)
Record Request : Type := mkRequest {
  url : string;
  start : Z;
  isoNow : Z;
  minuteNow : Z;
  hourNow : Z;
  env : Env;
  outBytes : Z;
  endNow : Z }.

(** The prologue shared by all routes.  It also registers the [data] and
    [end] listeners of the request body, which run after the handler has
    returned: see [BodyEnd] below. *)
Definition onRequest (r : Request) (m : Metrics) : Metrics :=
  let m := setRequests (requestCount m + 1) (Some (isoNow r)) m in
  let m := setWindows (lastMinuteRequests m ++ [minuteNow r])
                      (lastHourRequests m ++ [hourNow r]) m in
  setHistograms (statusCodeCounts m) (bump (url r) (requestsPerEndpoint m)) m.

Definition addBytesSent (n : Z) (m : Metrics) : Metrics :=
  setBytes (totalBytesReceived m) (totalBytesSent m + n) m.

Definition countStatus (code : string) (m : Metrics) : Metrics :=
  setHistograms (bump code (statusCodeCounts m)) (requestsPerEndpoint m) m.

(** The epilogue of the routes that time their response:
    [totalResponseTime += elapsed; minResponseTime = Math.min(...);
     maxResponseTime = Math.max(...)]. *)
Definition recordElapsed (elapsed : Z) (m : Metrics) : Metrics :=
  setResponseTimes (totalResponseTime m + elapsed)
                   (Math_min (minResponseTime m) elapsed)
                   (Z.max (maxResponseTime m) elapsed) m.

(** [sendData()] of the [/events] route: builds a snapshot, writes it to
    the stream and counts its bytes. *)
Definition sendData (e : Env) (len : Z) (m : Metrics) : Snap.t * Metrics :=
  let '(snap, m) := getSnapshot e m in
  (snap, addBytesSent (len + 8) m).

(** The server: the metrics, the interval timers that are armed (one per
    open [/events] stream, named by the number of the stream), the number
    the next stream gets, and the log of what was written to each stream. *)
Record Server : Type := mkServer {
  metrics : Metrics;
  timers : gset nat;
  nextStream : nat;
  written : list (nat * Snap.t) }.

Definition boot (cpus0 : list Cpu) : Server :=
  mkServer (initial cpus0) ∅ 0%nat [].

(** The callback given to [http.createServer]. *)
Definition handler (r : Request) (s : Server) : Server :=
  let m := onRequest r (metrics s) in
  if bool_decide (url r = "/") || bool_decide (url r = "/dashboard") then
    let m := addBytesSent (outBytes r) m in
    let m := countStatus "200" m in
    let elapsed := endNow r - start r in
    mkServer (recordElapsed elapsed m) (timers s) (nextStream s) (written s)
  else if bool_decide (url r = "/events") then
    let m := setActiveConnections (activeConnections m + 1) m in
    let '(snap, m) := sendData (env r) (outBytes r) m in
    let timer := nextStream s in
    mkServer m ({[timer]} ∪ timers s) (S (nextStream s))
             (written s ++ [(timer, snap)])
  else if bool_decide (url r = "/api/snapshot") then
    let '(_, m) := getSnapshot (env r) m in
    let m := addBytesSent (outBytes r) m in
    let m := countStatus "200" m in
    let elapsed := endNow r - start r in
    mkServer (recordElapsed elapsed m) (timers s) (nextStream s) (written s)
  else if bool_decide (url r = "/health") then
    let '(_, m) := getSnapshot (env r) m in
    let m := addBytesSent (outBytes r) m in
    let m := countStatus "200" m in
    mkServer m (timers s) (nextStream s) (written s)
  else
    let m := countStatus "404" m in
    let m := setErrorCount (errorCount m + 1) m in
    let elapsed := endNow r - start r in
    mkServer (recordElapsed elapsed m) (timers s) (nextStream s) (written s).

(** What the event loop can run: the request callback, the interval
    callback of stream [i] (the runtime only runs it while the timer is
    armed), the [close] listener of stream [i] (only [/events] requests
    register one), and the [end] listener of a request body, [n] being the
    length its [data] listener has added up
    ([totalBytesReceived += bytesReceived]). *)
Inductive Event : Type :=
| Incoming (r : Request)
| TimerFire (i : nat) (e : Env) (len : Z)
| Close (i : nat)
| BodyEnd (n : Z).

Definition step (s : Server) (ev : Event) : Server :=
  match ev with
  | Incoming r => handler r s
  | TimerFire i e len =>
      if bool_decide (i ∈ timers s) then
        let '(snap, m) := sendData e len (metrics s) in
        mkServer m (timers s) (nextStream s) (written s ++ [(i, snap)])
      else s
  | Close i =>
      if bool_decide (i < nextStream s)%nat then
        mkServer
          (setActiveConnections (activeConnections (metrics s) - 1) (metrics s))
          (timers s ∖ {[i]}) (nextStream s) (written s)
      else s
  | BodyEnd n =>
      mkServer
        (setBytes (totalBytesReceived (metrics s) + n)
                  (totalBytesSent (metrics s)) (metrics s))
        (timers s) (nextStream s) (written s)
  end.

Definition run (s : Server) (evs : list Event) : Server :=
  fold_left step evs s.

(** The snapshots written to stream [i] so far. *)
Definition writtenTo (i : nat) (s : Server) : list Snap.t :=
  (List.filter (fun p => bool_decide (p.1 = i)) (written s)).*2.


(** *** Formatting helpers *)

(** The four numbers [formatDuration] prints, for a whole number of
    seconds: [Math.floor(sec / 86400)], [Math.floor((sec % 86400) / 3600)],
    [Math.floor((sec % 3600) / 60)] and [sec % 60], where [%] is the
    remainder that takes the sign of the dividend. *)
Definition durationParts (sec : Z) : Z * Z * Z * Z :=
  (sec / 86400, Z.rem sec 86400 / 3600, Z.rem sec 3600 / 60, Z.rem sec 60).

(** [formatDuration(sec)]; integers are printed in decimal. *)
Definition formatDuration (sec : Q) : string :=
  let sec := Qfloor sec in
  let '(d, h, m, s) := durationParts sec in
  if 0 <? d then
    pretty d +:+ "d " +:+ pretty h +:+ "h " +:+ pretty m +:+ "m "
    +:+ pretty s +:+ "s"
  else if 0 <? h then
    pretty h +:+ "h " +:+ pretty m +:+ "m " +:+ pretty s +:+ "s"
  else if 0 <? m then pretty m +:+ "m " +:+ pretty s +:+ "s"
  else pretty s +:+ "s".

(** [mb], [kb] and [gb]: [toFixed(2)] strings, kept in hundredths. *)
Definition mb (b : Z) : Z := toFixed 2 (inject_Z b / 1024 / 1024)%Q.
Definition kb (b : Z) : Z := toFixed 2 (inject_Z b / 1024)%Q.
Definition gb (b : Z) : Z := toFixed 2 (inject_Z b / 1024 / 1024 / 1024)%Q.

Inductive ByteUnit : Type := KB | MB | GB.

Definition unitSuffix (u : ByteUnit) : string :=
  match u with KB => " KB" | MB => " MB" | GB => " GB" end.

Definition unitSize (u : ByteUnit) : Z :=
  match u with KB => 1024 | MB => 1048576 | GB => 1073741824 end.

(** What [formatBytes] returns: a two-decimal figure (in hundredths) with a
    unit, or the byte count itself followed by [" B"]. *)
Inductive Printed : Type :=
| Scaled (hundredths : Z) (u : ByteUnit)
| Whole (bytes : Z).

(** [formatBytes(bytes)]. *)
Definition formatBytes (bytes : Z) : Printed :=
  if 1073741824 <=? bytes then Scaled (gb bytes) GB
  else if 1048576 <=? bytes then Scaled (mb bytes) MB
  else if 1024 <=? bytes then Scaled (kb bytes) KB
  else Whole bytes.

(** *** Host descriptions *)

(** One address of [os.networkInterfaces()]. *)
Record Address : Type := mkAddress {
  address : string; family : string; mac : string; internal : bool }.

(** One entry of the list [getNetworkInfo] returns. *)
Record NetworkEntry : Type := mkNetworkEntry {
  entryInterface : string; entryAddress : string; entryFamily : string;
  entryMac : string }.

(** The inner loop [for (const addr of addrs)]. *)
Fixpoint pushExternal (name : string) (addrs : list Address)
    (result : list NetworkEntry) : list NetworkEntry :=
  match addrs with
  | [] => result
  | addr :: rest =>
      pushExternal name rest
        (if negb (internal addr)
         then result ++ [mkNetworkEntry name (address addr) (family addr)
                           (mac addr)]
         else result)
  end.

(** The outer loop over [Object.entries(interfaces)]. *)
Fixpoint eachInterface (entries : list (string * list Address))
    (result : list NetworkEntry) : list NetworkEntry :=
  match entries with
  | [] => result
  | (name, addrs) :: rest => eachInterface rest (pushExternal name addrs result)
  end.

(** [getNetworkInfo()], given the entries of [os.networkInterfaces()]. *)
Definition getNetworkInfo (interfaces : list (string * list Address))
    : list NetworkEntry :=
  eachInterface interfaces [].

(** The fields of an [os.cpus()] entry that [getCPUDetails] reads. *)
Record CpuInfo : Type := mkCpuInfo { model : string; speed : Z }.

Record CpuDetails : Type := mkCpuDetails {
  detailModel : string; detailSpeed : Z; cores : Z; physicalCores : Q }.

(** [getCPUDetails()]: [x || y] is [y] when [x] is undefined, the empty
    string or 0. *)
Definition getCPUDetails (cpus : list CpuInfo) : CpuDetails :=
  let n := Z.of_nat (length cpus) in
  {| detailModel :=
       match cpus !! 0%nat with
       | Some c => if bool_decide (model c = "") then "Unknown" else model c
       | None => "Unknown"
       end;
     detailSpeed :=
       match cpus !! 0%nat with
       | Some c => if speed c =? 0 then 0 else speed c
       | None => 0
       end;
     cores := n;
     physicalCores :=
       if Qeq_bool (inject_Z n / 2) 0 then inject_Z n else (inject_Z n / 2)%Q |}.

End Dashboard.

(** ** The older server, [src/server.js] *)

Module ServerJs.
Import JS.
Import Dashboard.

(** A double that may be [NaN] or infinite. *)
Inductive num : Type :=
| Num (z : Z)
| NaN
| Infinity (positive : bool).

(** The loop of the older [cpuUsage]: the previous reading of core [i] is
    [lastCpu[i].times], a [TypeError] ([None]) when [lastCpu[i]] is
    undefined. *)
Fixpoint cpuForEach (lastCpu : list Cpu) (i : nat) (cpus : list Cpu)
    (acc : Z * Z) : option (Z * Z) :=
  match cpus with
  | [] => Some acc
  | c :: rest =>
      match lastCpu !! i with
      | None => None
      | Some p =>
          let prev := times p in
          let curr := times c in
          let idleDiff := idle curr - idle prev in
          let totalDiff := ticks curr - ticks prev in
          cpuForEach lastCpu (S i) rest (acc.1 + idleDiff, acc.2 + totalDiff)
      end
  end.

(** [Math.round((1 - idle / total) * 100)] with no test on [total]:
    [0 / 0] is [NaN], [x / 0] is an infinity of the sign of [x], and
    [1 - x / 0] has the opposite sign. *)
Definition roundBusy (idle total : Z) : num :=
  if total =? 0 then
    if idle =? 0 then NaN else Infinity (idle <? 0)
  else Num (busyPercent idle total).

Definition cpuUsage (lastCpu cpus : list Cpu) : option (num * list Cpu) :=
  match cpuForEach lastCpu 0 cpus (0, 0) with
  | None => None
  | Some (idle, total) => Some (roundBusy idle total, cpus)
  end.


(** [mb]: [Math.round(b / 1024 / 1024)]. *)
Definition mb (b : Z) : Z := Math_round (inject_Z b / 1024 / 1024)%Q.

(** The three numbers the older [formatDuration] prints. *)
Definition durationParts (sec : Z) : Z * Z * Z :=
  (sec / 3600, Z.rem sec 3600 / 60, Z.rem sec 60).

Definition formatDuration (sec : Q) : string :=
  let sec := Qfloor sec in
  let '(h, m, s) := durationParts sec in
  pretty h +:+ "h " +:+ pretty m +:+ "m " +:+ pretty s +:+ "s".


(** *** The older server's state, snapshot and handler *)

Record State : Type := mkState {
  lastCpu : list Cpu;
  requestCount : Z;
  totalResponseTime : Z;
  lastRequestTime : option Z }.

Definition initial (cpus0 : list Cpu) : State := mkState cpus0 0 0 None.

(** What the host and the clock answer during one [getSnapshot()] call;
    [disk] is the result of [diskUsage()], and [process.uptime()] is read
    twice. *)
Record Host : Type := mkHost {
  stampNow : Z;
  cpus : list Cpu;
  rss : Z;
  disk : Z;
  uptimeShown : Q;
  uptimeRated : Q }.

Record Snapshot : Type := mkSnapshot {
  timestamp : Z;
  cpu : num;
  memory : Z;
  diskPercent : Z;
  uptime : string;
  requests : Z;
  rpm : Z;
  avgResponseMs : Z;
  lastRequest : option Z }.

(** [getSnapshot()]; [None] when [cpuUsage()] throws. *)
Definition getSnapshot (h : Host) (st : State) : option (Snapshot * State) :=
  match cpuUsage (lastCpu st) (cpus h) with
  | None => None
  | Some (cpu, cpus') =>
      let minutes := (uptimeRated h / 60)%Q in
      Some ({| timestamp := stampNow h;
               cpu := cpu;
               memory := mb (rss h);
               diskPercent := disk h;
               uptime := formatDuration (uptimeShown h);
               requests := requestCount st;
               rpm := Math_round
                        (inject_Z (requestCount st)
                         / (if Qeq_bool minutes 0 then 1 else minutes))%Q;
               avgResponseMs :=
                 if requestCount st =? 0 then 0
                 else Math_round (inject_Z (totalResponseTime st)
                                  / inject_Z (requestCount st))%Q;
               lastRequest := lastRequestTime st |},
            mkState cpus' (requestCount st) (totalResponseTime st)
                    (lastRequestTime st))
  end.

(** One request with the clock readings taken while it is handled. *)
Record Request : Type := mkRequest {
  url : string; start : Z; isoNow : Z; endNow : Z }.

Record Server : Type := mkServer {
  state : State;
  timers : gset nat;
  nextStream : nat;
  written : list (nat * Snapshot) }.

Definition boot (cpus0 : list Cpu) : Server :=
  mkServer (initial cpus0) ∅ 0%nat [].

(** The callback given to [http.createServer]. *)
Definition handler (r : Request) (s : Server) : Server :=
  let st := mkState (lastCpu (state s)) (requestCount (state s) + 1)
                    (totalResponseTime (state s)) (Some (isoNow r)) in
  if bool_decide (url r = "/") then
    mkServer st (timers s) (nextStream s) (written s)
  else if bool_decide (url r = "/events") then
    mkServer st ({[nextStream s]} ∪ timers s) (S (nextStream s)) (written s)
  else
    mkServer (mkState (lastCpu st) (requestCount st)
                (totalResponseTime st + (endNow r - start r))
                (lastRequestTime st))
             (timers s) (nextStream s) (written s).

Inductive Event : Type :=
| Incoming (r : Request)
| TimerFire (i : nat) (h : Host)
| Close (i : nat).

(** One turn of the event loop; [None] when the callback throws, which
    nothing catches. *)
Definition step (s : Server) (ev : Event) : option Server :=
  match ev with
  | Incoming r => Some (handler r s)
  | TimerFire i h =>
      if bool_decide (i ∈ timers s) then
        match getSnapshot h (state s) with
        | None => None
        | Some (snap, st) =>
            Some (mkServer st (timers s) (nextStream s)
                    (written s ++ [(i, snap)]))
        end
      else Some s
  | Close i =>
      if bool_decide (i < nextStream s)%nat then
        Some (mkServer (state s) (timers s ∖ {[i]}) (nextStream s) (written s))
      else Some s
  end.

Fixpoint run (s : Server) (evs : list Event) : option Server :=
  match evs with
  | [] => Some s
  | ev :: rest =>
      match step s ev with
      | None => None
      | Some s' => run s' rest
      end
  end.

(** The requests of a run whose branch adds to [totalResponseTime]. *)
Definition timedRequests (evs : list Event) : list Request :=
  omap (fun ev =>
          match ev with
          | Incoming r =>
              if bool_decide (url r = "/") || bool_decide (url r = "/events")
              then None else Some r
          | _ => None
          end) evs.

Definition allRequests (evs : list Event) : list Request :=
  omap (fun ev => match ev with Incoming r => Some r | _ => None end) evs.

End ServerJs.

(** ** The script of the dashboard page *)

Module Client.

Definition MAX_HISTORY : nat := 60.

(** [history.push(v); if (history.length > MAX_HISTORY) history.shift();]
    as the [onmessage] handler does for [cpuHistory] and [memHistory]. *)
Definition pushHistory (history : list Q) (v : Q) : list Q :=
  let history := history ++ [v] in
  if (MAX_HISTORY <? length history)%nat then tail history else history.

(** The history after the values of a sequence of messages. *)
Definition received (values : list Q) : list Q :=
  fold_left pushHistory values [].

Inductive GaugeColor : Type := Green | Yellow | Orange | Red.

(** The colour [updateGauge] picks: each later test overrides the earlier
    ones. *)
Definition gaugeColor (value : Q) : GaugeColor :=
  let color := Green in
  let color := if JS.gt value 70 then Yellow else color in
  let color := if JS.gt value 85 then Orange else color in
  let color := if JS.gt value 95 then Red else color in
  color.

End Client.

(** ** Observations used to state the properties *)

Module Obs.
Import JS.
Import Dashboard.

Definition sumZ (l : list Z) : Z := foldr Z.add 0 l.

(** [roundsTo t y]: the integer [t] is what rounding to the nearest
    integer gives for the double that the code computes where the exact
    arithmetic gives [y].  It is the integer nearest to [y]; when [y] is a
    tie between two integers, or within the relative error of the double
    arithmetic of one (2^-40 is far above the few 2^-53 of two or three
    operations), [t] may be either of them. *)
Definition roundsTo (t : Z) (y : Q) : Prop :=
  (Qabs (inject_Z t - y) <= (1 # 2) + (1 + Qabs y) * (1 # 1099511627776))%Q.

(** Idle ticks and all ticks of a reading, summed over its cores. *)
Definition sumIdle (l : list Cpu) : Z :=
  sumZ ((fun c => idle (times c)) <$> l).
Definition sumTicks (l : list Cpu) : Z :=
  sumZ ((fun c => ticks (times c)) <$> l).

(** The requests among the events of a run, in order. *)
Definition requests (evs : list Event) : list Request :=
  omap (fun ev => match ev with Incoming r => Some r | _ => None end) evs.

Definition streaming (r : Request) : bool := bool_decide (url r = "/events").
Definition healthProbe (r : Request) : bool := bool_decide (url r = "/health").

(** The routes whose branch ends with the timing epilogue. *)
Definition timed (r : Request) : bool :=
  negb (streaming r) && negb (healthProbe r).

(** [Date.now() - start] at the end of a timed branch. *)
Definition elapsed (r : Request) : Z := endNow r - start r.

(** The elapsed times e_1..e_N a run records, in order. *)
Definition elapsedTimes (evs : list Event) : list Z :=
  elapsed <$> List.filter timed (requests evs).

Definition streams (evs : list Event) : nat :=
  length (List.filter streaming (requests evs)).

Definition healthProbes (evs : list Event) : nat :=
  length (List.filter healthProbe (requests evs)).

(** The stored extrema are either still the initial pair (+Infinity, 0)
    or a finite minimum below the maximum. *)
Definition extremaOrdered (m : Metrics) : Prop :=
  match minResponseTime m with
  | Fin lo => lo <= maxResponseTime m
  | PInf => maxResponseTime m = 0
  end.

(** All clock readings taken while request [r] is handled show [T]. *)
Definition atTime (T : Z) (r : Request) : Prop :=
  minuteNow r = T /\ hourNow r = T /\ cleanupNow (env r) = T.

(** The host answers [e], asked at time [now]. *)
Definition askedAt (now : Z) (e : Env) : Env :=
  mkEnv now (cpus e) (uptime e) (sysMemTotal e) (sysMemFree e)
        (diskPercent e) (stampNow e).

(** Events that neither open nor close a stream. *)
Definition quiet (ev : Event) : bool :=
  match ev with
  | Incoming r => negb (streaming r)
  | TimerFire _ _ _ => true
  | Close _ => false
  | BodyEnd _ => true
  end.

(** Once the timer of stream [i] is cleared, no event arms it again or
    writes to the stream. *)
Definition cleared (i : nat) (s : Server) : Prop :=
  (i ∉ timers s) /\ (i < nextStream s)%nat.

(** Whether an event opens a stream, and what it adds to
    [activeConnections] when [n] streams have been opened before it. *)
Definition opens (ev : Event) : bool :=
  match ev with
  | Incoming r => streaming r
  | _ => false
  end.

Definition connectionChange (n : nat) (ev : Event) : Z :=
  match ev with
  | Incoming r => if streaming r then 1 else 0
  | TimerFire _ _ _ => 0
  | Close j => if bool_decide (j < n)%nat then -1 else 0
  | BodyEnd _ => 0
  end.

(** What a sequence of events adds to [activeConnections]. *)
Fixpoint connectionsDelta (n : nat) (evs : list Event) : Z :=
  match evs with
  | [] => 0
  | ev :: rest =>
      connectionChange n ev
      + connectionsDelta (if opens ev then S n else n) rest
  end.

(** The tiers in order of severity. *)
Definition severity (h : Health) : nat :=
  match h with HEALTHY => 0 | WARNING => 1 | CRITICAL => 2 end.

(** Between the stored reading [p] and the new reading [c] of a core the
    idle ticks and the busy ticks have not gone down. *)
Definition advanced (p c : Cpu) : Prop :=
  idle (times p) <= idle (times c) /\
  idle (times c) - idle (times p) <= ticks (times c) - ticks (times p).

(** [covered minute hour]: every entry of the first list has a partner in
    the second list that is not older, partners coming in the same order. *)
Inductive covered : list Z -> list Z -> Prop :=
| covered_nil : covered [] []
| covered_skip (m h : list Z) (b : Z) : covered m h -> covered m (b :: h)
| covered_pair (m h : list Z) (a b : Z) :
    a <= b -> covered m h -> covered (a :: m) (b :: h).

(** The clock does not run backwards between the two pushes of the
    prologue of a request. *)
Definition pushesInOrder (ev : Event) : Prop :=
  match ev with
  | Incoming r => minuteNow r <= hourNow r
  | _ => True
  end.

(** The streams whose [close] event occurs in a run, in order. *)
Definition closes (evs : list Event) : list nat :=
  omap (fun ev => match ev with Close i => Some i | _ => None end) evs.

(** The sum of the counts of a histogram object. *)
Definition histogramTotal (obj : gmap string Z) : Z :=
  map_fold (fun _ v acc => v + acc) 0 obj.

(** How many requests of a run asked for [u]. *)
Definition hits (u : string) (evs : list Event) : nat :=
  length (List.filter (fun r => bool_decide (url r = u)) (requests evs)).

(** The tenths a [pct] result prints (0 for the number 0). *)
Definition tenths (p : pctResult) : Z :=
  match p with PctZero => 0 | PctFixed n => n end.

(** A snapshot with its CPU figure and health replaced. *)
Definition withCpu (cpu : Z) (h : Health * string) (s : Snap.t) : Snap.t :=
  Snap.mk (Snap.timestamp s) h.1 h.2 cpu (Snap.sysMemPercent s)
    (Snap.diskPercent s) (Snap.processUptimeSec s) (Snap.totalRequests s)
    (Snap.rpm s) (Snap.rps s) (Snap.rph s) (Snap.avgLifetimeRpm s)
    (Snap.avgResponseMs s) (Snap.minResponseMs s) (Snap.maxResponseMs s)
    (Snap.totalResponseTime s) (Snap.errorCount s) (Snap.successCount s)
    (Snap.errorRate s) (Snap.successRate s) (Snap.activeConnections s)
    (Snap.bytesReceivedRaw s) (Snap.bytesSentRaw s) (Snap.statusCodes s)
    (Snap.endpoints s) (Snap.lastRequest s).

(** What the status histogram shows of a server state. *)
Definition statusAccounted (s : Server) : Prop :=
  let codes := statusCodeCounts (metrics s) in
  default 0 (codes !! "404") = errorCount (metrics s) /\
  default 0 (codes !! "200") + default 0 (codes !! "404")
    + Z.of_nat (nextStream s) = requestCount (metrics s) /\
  dom codes ⊆ {["200"; "404"]}.

(** The armed timers are the streams opened so far whose [close] is not in
    [closed], and activeConnections is their number. *)
Definition openStreams (closed : gset nat) (s : Server) : Prop :=
  (forall i : nat,
     i ∈ timers s <-> (i < nextStream s)%nat /\ i ∉ closed) /\
  (forall i : nat, i ∈ closed -> (i < nextStream s)%nat) /\
  activeConnections (metrics s) = Z.of_nat (size (timers s)).

(** Both windows hold at most one entry per counted request. *)
Definition windowsWithinTotal (s : Server) : Prop :=
  Z.of_nat (length (lastMinuteRequests (metrics s))) <= requestCount (metrics s)
  /\
  Z.of_nat (length (lastHourRequests (metrics s))) <= requestCount (metrics s).

(** Every stream was opened by a counted request, the armed timers belong
    to opened streams, and every snapshot written so far shows at least
    one request. *)
Definition streamsCounted (s : Server) : Prop :=
  Z.of_nat (nextStream s) <= requestCount (metrics s) /\
  (forall i : nat, i ∈ timers s -> (i < nextStream s)%nat) /\
  Forall (fun p => 1 <= Snap.totalRequests p.2) (written s).

(** The life of one subscriber as the specification describes it:
    CONNECTING until its [/events] request arrives, STREAMING until its
    transport closes, then CLOSED for good.  [streamsBefore] counts the
    streams opened so far (stream [i] is opened by the request that finds
    [i] streams before it) and [pushes] the snapshots pushed to the
    subscriber: one when it starts streaming and one for each of its ticks
    while it is STREAMING. *)
Inductive Phase : Type := CONNECTING | STREAMING | CLOSED.

Record Subscriber : Type := mkSubscriber {
  streamsBefore : nat; phase : Phase; pushes : nat }.

Definition subscriberStep (i : nat) (a : Subscriber) (ev : Event)
    : Subscriber :=
  match ev with
  | Incoming r =>
      if streaming r then
        if bool_decide (streamsBefore a = i)
        then mkSubscriber (S (streamsBefore a)) STREAMING (S (pushes a))
        else mkSubscriber (S (streamsBefore a)) (phase a) (pushes a)
      else a
  | TimerFire j _ _ =>
      match phase a with
      | STREAMING =>
          if bool_decide (j = i)
          then mkSubscriber (streamsBefore a) STREAMING (S (pushes a))
          else a
      | _ => a
      end
  | Close j =>
      match phase a with
      | STREAMING =>
          if bool_decide (j = i)
          then mkSubscriber (streamsBefore a) CLOSED (pushes a)
          else a
      | _ => a
      end
  | BodyEnd _ => a
  end.

Definition subscriber (i : nat) (evs : list Event) : Subscriber :=
  fold_left (subscriberStep i) evs (mkSubscriber 0 CONNECTING 0).

(** The server state [s] shows subscriber [i] as [a] describes it. *)
Definition follows (i : nat) (s : Server) (a : Subscriber) : Prop :=
  streamsBefore a = nextStream s /\
  length (writtenTo i s) = pushes a /\
  (i ∈ timers s <-> phase a = STREAMING) /\
  (phase a = CONNECTING <-> (nextStream s <= i)%nat).

End Obs.

(** ** The derivations as the specification words them *)

Module Spec.
Import JS.

(** [successRate = totalRequests > 0 ?
      100*(totalRequests-errorCount)/totalRequests : 100], rounded to one
    decimal. *)
Definition successRate (totalRequests errorCount : Z) : Q :=
  if 0 <? totalRequests
  then fixedValue 1 (toFixed 1 (100 * inject_Z (totalRequests - errorCount)
                                / inject_Z totalRequests)%Q)
  else 100%Q.

(** [avgLifetimeRpm = totalRequests / max(processUptimeSeconds/60, 1)],
    printed with two decimals. *)
Definition avgLifetimeRpm (totalRequests : Z) (uptimeSeconds : Q) : Z :=
  let minutes := (uptimeSeconds / 60)%Q in
  toFixed 2 (inject_Z totalRequests
             / (if Qle_bool minutes 1 then 1 else minutes))%Q.

End Spec.

(** ** Sample inputs *)

Module Sample.
Import Dashboard.

(** The host answers at time [now], the process being up for [up]
    seconds. *)
Definition host (now : Z) (up : Q) : Env :=
  mkEnv now [mkCpu (mkTimes 1500 0 0 9500 0)] up 8000000000 2000000000 40 now.

(** A request for [u] that arrives at [t0] and is answered at [t1]. *)
Definition request (u : string) (t0 t1 : Z) : Request :=
  mkRequest u t0 t0 t0 t0 (host t0 30) 512 t1.

Definition cores : list Cpu := [mkCpu (mkTimes 1000 0 0 9000 0)].

End Sample.

(** * Properties *)

Import JS Dashboard Obs.

(** ** Rounding in closed form *)

Lemma Qfloor_div (a b : Z) : Qfloor (inject_Z a / inject_Z b)%Q = a / b.
Proof. symmetry. apply Zdiv_Qdiv. Qed.

Lemma inject_Z_nonzero (b : Z) : b <> 0 -> ~ (inject_Z b == 0)%Q.
Proof.
  intros Hb HQ. apply Hb.
  unfold Qeq, inject_Z in HQ. simpl in HQ. lia.
Qed.

(** [Math.round(a / b)] is the floor of [(2a + b) / 2b]. *)
Lemma Math_round_div (a b : Z) :
  0 < b -> Math_round (inject_Z a / inject_Z b)%Q = (2 * a + b) / (2 * b).
Proof.
  intros Hb. unfold Math_round. rewrite <- Qfloor_div.
  apply Qfloor_comp.
  rewrite !inject_Z_plus, !inject_Z_mult.
  field. apply inject_Z_nonzero. lia.
Qed.







(** At a tie [roundsTo] allows both neighbours, and nothing else: 23 of
    80 in tenths of a percent is 287.5, printed 28.7 by the code; away
    from a tie it allows the nearest integer only. *)
Example roundsTo_at_a_tie :
  roundsTo 287 (10 * (100 * 23 / 80)) /\ roundsTo 288 (10 * (100 * 23 / 80)) /\
  ~ roundsTo 286 (10 * (100 * 23 / 80)) /\
  ~ roundsTo 289 (10 * (100 * 23 / 80)) /\
  roundsTo 667 (10 * (100 * 2 / 3)) /\ ~ roundsTo 666 (10 * (100 * 2 / 3)).
Proof.
  unfold roundsTo. repeat split;
    try (vm_compute; discriminate);
    intros H; vm_compute in H; apply H; reflexivity.
Qed.

(** The model's [Math.round((1 - idle / total) * 100)] in integer
    arithmetic. *)
Lemma busyPercent_closed (i t : Z) :
  0 < t -> busyPercent i t = (200 * (t - i) + t) / (2 * t).
Proof.
  intros Ht. unfold busyPercent, Math_round. rewrite <- Qfloor_div.
  apply Qfloor_comp.
  unfold Z.sub.
  repeat (rewrite inject_Z_plus || rewrite inject_Z_mult
          || rewrite inject_Z_opp).
  field. apply inject_Z_nonzero. lia.
Qed.

(** ** The health classifier *)

Lemma gt_true (a b : Q) : gt a b = true <-> (b < a)%Q.
Proof.
  unfold gt. rewrite negb_true_iff. split.
  - intros H. apply Qnot_le_lt. intros Hle.
    apply Qle_bool_iff in Hle. congruence.
  - intros H. destruct (Qle_bool a b) eqn:E; [|reflexivity].
    apply Qle_bool_iff in E. exfalso. exact (Qlt_not_le _ _ H E).
Qed.

Lemma gt_false (a b : Q) : gt a b = false <-> ~ (b < a)%Q.
Proof.
  rewrite <- gt_true. destruct (gt a b); split; intros H;
    try reflexivity; try discriminate; try (intros ?; discriminate).
  exfalso. apply H. reflexivity.
Qed.

Ltac decide_gt :=
  repeat match goal with
  | H : gt _ _ = true |- _ => apply gt_true in H
  | H : gt _ _ = false |- _ => apply gt_false in H
  end.

(** C8. [getHealthStatus] answers CRITICAL exactly when cpu > 90 or
    mem > 90 or disk > 95; otherwise WARNING exactly when cpu > 70 or
    mem > 70 or disk > 80; otherwise HEALTHY.  The critical tier is tested
    first, each tier comes with its colour, and the three sample inputs
    (95,10,10), (75,10,10) and (10,10,10) are classified CRITICAL, WARNING
    and HEALTHY. *)
Theorem getHealthStatus_tiers (cpu mem disk : Q) :
  let critical := (90 < cpu \/ 90 < mem \/ 95 < disk)%Q in
  let warning := (70 < cpu \/ 70 < mem \/ 80 < disk)%Q in
  (getHealthStatus cpu mem disk = (CRITICAL, "#ef4444") <-> critical) /\
  (getHealthStatus cpu mem disk = (WARNING, "#f59e0b") <->
     ~ critical /\ warning) /\
  (getHealthStatus cpu mem disk = (HEALTHY, "#22c55e") <->
     ~ critical /\ ~ warning) /\
  ((getHealthStatus cpu mem disk).1 = CRITICAL \/
   (getHealthStatus cpu mem disk).1 = WARNING \/
   (getHealthStatus cpu mem disk).1 = HEALTHY) /\
  getHealthStatus 95 10 10 = (CRITICAL, "#ef4444") /\
  getHealthStatus 75 10 10 = (WARNING, "#f59e0b") /\
  getHealthStatus 10 10 10 = (HEALTHY, "#22c55e").
Proof.
  intros critical warning. subst critical warning. unfold getHealthStatus.
  destruct (gt cpu 90) eqn:C1, (gt mem 90) eqn:M1, (gt disk 95) eqn:D1,
           (gt cpu 70) eqn:C2, (gt mem 70) eqn:M2, (gt disk 80) eqn:D2;
    decide_gt; cbn [orb fst];
    repeat split; intros; try discriminate; try reflexivity;
    try tauto; auto.
Qed.

(** ** The CPU sampler *)

Lemma sumIdle_cons c l : sumIdle (c :: l) = idle (times c) + sumIdle l.
Proof. reflexivity. Qed.

Lemma sumTicks_cons c l : sumTicks (c :: l) = ticks (times c) + sumTicks l.
Proof. reflexivity. Qed.

(** The loop adds up, core by core, the difference between the new and
    the stored reading, over the cores present in both. *)
Lemma cpuForEach_sums (last cpus : list Cpu) :
  forall (i : nat) (acc : Z * Z),
  Dashboard.cpuForEach last i cpus acc =
  (acc.1 + (sumIdle (take (length last - i) cpus)
            - sumIdle (take (length cpus) (drop i last))),
   acc.2 + (sumTicks (take (length last - i) cpus)
            - sumTicks (take (length cpus) (drop i last)))).
Proof.
  induction cpus as [|c rest IH]; intros i [a b].
  - cbn [Dashboard.cpuForEach length]. rewrite take_nil, take_0.
    cbn. f_equal; lia.
  - cbn [Dashboard.cpuForEach]. rewrite IH. cbn [fst snd length].
    destruct (last !! i) as [p|] eqn:E.
    + assert (i < length last)%nat as Hi by (eapply lookup_lt_Some; eauto).
      replace (length last - i)%nat with (S (length last - S i)) by lia.
      rewrite (drop_S _ _ _ E). cbn [take].
      rewrite !sumIdle_cons, !sumTicks_cons. f_equal; lia.
    + apply lookup_ge_None in E.
      replace (length last - i)%nat with 0%nat by lia.
      replace (length last - S i)%nat with 0%nat by lia.
      rewrite !drop_ge by lia. rewrite !take_0, !take_nil.
      cbn. f_equal; lia.
Qed.

(** Against an unchanged reading every difference is zero. *)
Lemma cpuForEach_same (c : list Cpu) :
  Dashboard.cpuForEach c 0 c (0, 0) = (0, 0).
Proof.
  rewrite cpuForEach_sums. cbn [fst snd].
  rewrite Nat.sub_0_r, drop_0. f_equal; lia.
Qed.

Lemma cpuUsage_snd (last c : list Cpu) : (Dashboard.cpuUsage last c).2 = c.
Proof.
  unfold Dashboard.cpuUsage.
  destruct (Dashboard.cpuForEach last 0 c (0, 0)). reflexivity.
Qed.

Lemma legacy_cpuForEach_same (c : list Cpu) :
  forall (i : nat) (suffix : list Cpu) (acc : Z * Z),
  drop i c = suffix ->
  ServerJs.cpuForEach c i suffix acc = Some acc.
Proof.
  intros i suffix. revert i.
  induction suffix as [|x rest IH]; intros i [a b] Hd.
  - reflexivity.
  - cbn [ServerJs.cpuForEach].
    assert (c !! i = Some x) as Hx.
    { rewrite <- (Nat.add_0_r i), <- lookup_drop, Hd. reflexivity. }
    rewrite Hx. cbn [fst snd].
    rewrite (IH (S i)).
    + f_equal. f_equal; lia.
    + rewrite (drop_S _ _ _ Hx) in Hd. congruence.
Qed.

(** C7. Two calls of [cpuUsage] in a row that see the same tick
    counters: the second call of the dashboard's sampler returns 0, for any
    reading stored before the first call, because a total difference that
    is not positive takes the guarded branch.  The sampler of
    [src/server.js] has no such test: on the same second call it evaluates
    [0 / 0] and returns [NaN]. *)
Theorem cpuUsage_twice_is_zero (before c : list Cpu) :
  (Dashboard.cpuUsage (Dashboard.cpuUsage before c).2 c).1 = 0 /\
  (Dashboard.cpuUsage (Dashboard.cpuUsage before c).2 c).2 = c /\
  ServerJs.cpuUsage c c = Some (ServerJs.NaN, c).
Proof.
  rewrite cpuUsage_snd. split; [|split].
  - unfold Dashboard.cpuUsage. rewrite cpuForEach_same. reflexivity.
  - apply cpuUsage_snd.
  - unfold ServerJs.cpuUsage.
    rewrite (legacy_cpuForEach_same c 0 c (0, 0)) by apply drop_0.
    reflexivity.
Qed.



(** ** What [getSnapshot] leaves behind *)

Lemma getSnapshot_snd (e : Env) (m : Metrics) :
  (getSnapshot e m).2
  = setLastCpu (cpus e) (cleanupOldRequests (cleanupNow e) m).
Proof.
  unfold getSnapshot.
  pose proof (cpuUsage_snd (lastCpu (cleanupOldRequests (cleanupNow e) m))
                (cpus e)) as H.
  destruct (Dashboard.cpuUsage _ _) as [p c]. cbn in H. subst c. reflexivity.
Qed.

(** Names the two components of every [getSnapshot] call in the goal and
    replaces the state component by its description. *)
Ltac snap_split :=
  repeat match goal with
  | |- context [getSnapshot ?e ?m] =>
      let H := fresh "Hsnap" in
      pose proof (getSnapshot_snd e m) as H;
      destruct (getSnapshot e m) as [? ?]; cbn [snd] in H; subst
  end.

(** Splits a goal about one step of the server into one goal per kind of
    event and per route, with the new state spelled out. *)
Ltac step_cases ev :=
  destruct ev as [r | i e len | i | n]; cbn [step];
  [ unfold handler; repeat case_bool_decide
  | case_bool_decide
  | case_bool_decide
  | idtac ];
  unfold sendData; snap_split; cbn.

Lemma run_cons (s : Server) (ev : Event) (evs : list Event) :
  run s (ev :: evs) = run (step s ev) evs.
Proof. reflexivity. Qed.

Lemma run_app (s : Server) (evs1 evs2 : list Event) :
  run s (evs1 ++ evs2) = run (run s evs1) evs2.
Proof. unfold run. apply fold_left_app. Qed.

(** A property kept by every step holds after every run. *)
Lemma run_invariant (P : Server -> Prop) :
  (forall s ev, P s -> P (step s ev)) ->
  forall evs s, P s -> P (run s evs).
Proof.
  intros Hstep evs. induction evs as [|ev evs IH]; intros s Hs.
  - exact Hs.
  - rewrite run_cons. apply IH, Hstep, Hs.
Qed.

(** ** Counters after a run *)

Lemma step_requestCount (s : Server) (ev : Event) :
  requestCount (metrics (step s ev)) =
  requestCount (metrics s) + Z.of_nat (length (requests [ev])).
Proof. step_cases ev; lia. Qed.

Lemma step_totalResponseTime (s : Server) (ev : Event) :
  totalResponseTime (metrics (step s ev)) =
  totalResponseTime (metrics s) + sumZ (elapsedTimes [ev]).
Proof.
  step_cases ev; unfold elapsedTimes, timed, streaming, healthProbe, elapsed;
    cbn; repeat case_bool_decide; cbn; try lia; congruence.
Qed.

Lemma sumZ_app (l1 l2 : list Z) : sumZ (l1 ++ l2) = sumZ l1 + sumZ l2.
Proof.
  unfold sumZ. induction l1 as [|x l1 IH]; cbn; [reflexivity | rewrite IH; lia].
Qed.

Lemma requests_cons (ev : Event) (evs : list Event) :
  requests (ev :: evs) = requests [ev] ++ requests evs.
Proof. unfold requests. destruct ev; reflexivity. Qed.

Lemma elapsedTimes_cons (ev : Event) (evs : list Event) :
  elapsedTimes (ev :: evs) = elapsedTimes [ev] ++ elapsedTimes evs.
Proof.
  unfold elapsedTimes. rewrite requests_cons, List.filter_app, fmap_app.
  reflexivity.
Qed.

Lemma streams_cons (ev : Event) (evs : list Event) :
  streams (ev :: evs) = (streams [ev] + streams evs)%nat.
Proof.
  unfold streams. rewrite requests_cons, List.filter_app, length_app.
  reflexivity.
Qed.

Lemma healthProbes_cons (ev : Event) (evs : list Event) :
  healthProbes (ev :: evs) = (healthProbes [ev] + healthProbes evs)%nat.
Proof.
  unfold healthProbes. rewrite requests_cons, List.filter_app, length_app.
  reflexivity.
Qed.

(** [requestCount] counts every request of the run, [totalResponseTime]
    adds up the elapsed times of the timed ones. *)
Lemma run_totals (evs : list Event) :
  forall s : Server,
  requestCount (metrics (run s evs)) =
    requestCount (metrics s) + Z.of_nat (length (requests evs)) /\
  totalResponseTime (metrics (run s evs)) =
    totalResponseTime (metrics s) + sumZ (elapsedTimes evs).
Proof.
  induction evs as [|ev evs IH]; intros s.
  - cbn. split; lia.
  - rewrite run_cons. destruct (IH (step s ev)) as [Hc Ht].
    rewrite Hc, Ht, step_requestCount, step_totalResponseTime.
    rewrite (requests_cons ev evs), (elapsedTimes_cons ev evs).
    rewrite length_app, sumZ_app. split; lia.
Qed.

(** Every request is timed, a stream or a health probe. *)
Lemma requests_partition (evs : list Event) :
  length (requests evs) =
  (length (elapsedTimes evs) + streams evs + healthProbes evs)%nat.
Proof.
  induction evs as [|ev evs IH].
  - reflexivity.
  - rewrite requests_cons, elapsedTimes_cons, streams_cons, healthProbes_cons.
    rewrite !length_app, IH.
    enough (length (requests [ev]) =
            (length (elapsedTimes [ev]) + streams [ev] + healthProbes [ev])%nat)
      by lia.
    destruct ev as [r| | |]; try reflexivity.
    unfold elapsedTimes, streams, healthProbes, timed, streaming, healthProbe.
    cbn. repeat case_bool_decide; cbn; try reflexivity; congruence.
Qed.

(** ** Snapshot fields read off the state *)

Lemma snapshot_avgResponseMs (e : Env) (m : Metrics) :
  Snap.avgResponseMs (getSnapshot e m).1 =
  if requestCount m =? 0 then 0
  else Math_round
         (inject_Z (totalResponseTime m) / inject_Z (requestCount m))%Q.
Proof. unfold getSnapshot. destruct (Dashboard.cpuUsage _ _). reflexivity. Qed.

Lemma snapshot_rates (e : Env) (m : Metrics) :
  Snap.successRate (getSnapshot e m).1 =
    pct (requestCount m - errorCount m) (requestCount m) /\
  Snap.errorRate (getSnapshot e m).1 = pct (errorCount m) (requestCount m) /\
  Snap.successCount (getSnapshot e m).1 = requestCount m - errorCount m /\
  Snap.totalRequests (getSnapshot e m).1 = requestCount m /\
  Snap.errorCount (getSnapshot e m).1 = errorCount m.
Proof. unfold getSnapshot. destruct (Dashboard.cpuUsage _ _). auto. Qed.

Lemma snapshot_extrema (e : Env) (m : Metrics) :
  Snap.minResponseMs (getSnapshot e m).1 =
    match minResponseTime m with PInf => 0 | Fin z => z end /\
  Snap.maxResponseMs (getSnapshot e m).1 = maxResponseTime m.
Proof. unfold getSnapshot. destruct (Dashboard.cpuUsage _ _). auto. Qed.

Lemma snapshot_windows (e : Env) (m : Metrics) :
  Snap.rpm (getSnapshot e m).1 =
    Z.of_nat (length (prune 60000 (cleanupNow e) (lastMinuteRequests m))) /\
  Snap.rph (getSnapshot e m).1 =
    Z.of_nat (length (prune 3600000 (cleanupNow e) (lastHourRequests m))).
Proof. unfold getSnapshot. destruct (Dashboard.cpuUsage _ _). auto. Qed.


(** ** C1: the average response time *)

(** C1, counterexample. One page request that takes 10 ms followed by one
    [/events] request: a single elapsed time is recorded (N = 1, sum 10),
    yet the snapshot reports round(10 / 2) = 5, not round(10 / 1) = 10. *)
Lemma avgResponseMs_not_over_recorded :
  let evs := [Incoming (Sample.request "/" 1000 1010);
              Incoming (Sample.request "/events" 2000 2000)] in
  let snap := (getSnapshot (Sample.host 3000 30)
                 (metrics (run (boot Sample.cores) evs))).1 in
  elapsedTimes evs = [10] /\
  Snap.avgResponseMs snap = 5 /\
  Snap.avgResponseMs snap <>
    Math_round (inject_Z (sumZ (elapsedTimes evs))
                / inject_Z (Z.of_nat (length (elapsedTimes evs))))%Q.
Proof. vm_compute. repeat split; discriminate. Qed.

(** C1, amended. In a run without [/health] requests that records the
    elapsed times e_1..e_N and opens E event streams, the snapshot counts
    N + E requests and reports avgResponseMs = round((e_1 + ... + e_N) /
    (N + E)), and 0 when there was no request: the divisor is the number of
    all requests, of which the streams record no elapsed time. *)
Theorem avgResponseMs_over_all_requests
    (cpus0 : list Cpu) (evs : list Event) (e : Env) :
  healthProbes evs = 0%nat ->
  let snap := (getSnapshot e (metrics (run (boot cpus0) evs))).1 in
  let N := Z.of_nat (length (elapsedTimes evs)) in
  let E := Z.of_nat (streams evs) in
  Snap.totalRequests snap = N + E /\
  Snap.avgResponseMs snap =
    if N + E =? 0 then 0
    else Math_round (inject_Z (sumZ (elapsedTimes evs)) / inject_Z (N + E))%Q.
Proof.
  intros Hh snap N E. subst snap N E.
  destruct (run_totals evs (boot cpus0)) as [Hc Ht].
  cbn [boot metrics initial requestCount totalResponseTime] in Hc, Ht.
  rewrite requests_partition, Hh in Hc.
  destruct (snapshot_rates e (metrics (run (boot cpus0) evs)))
    as (_ & _ & _ & Hn & _).
  rewrite Hn, snapshot_avgResponseMs, Hc, Ht.
  replace (0 + Z.of_nat (length (elapsedTimes evs) + streams evs + 0))
    with (Z.of_nat (length (elapsedTimes evs)) + Z.of_nat (streams evs))
    by lia.
  rewrite Z.add_0_l. split; reflexivity.
Qed.

Lemma avgResponseMs_over_all_requests_witness :
  let evs := [Incoming (Sample.request "/" 1000 1010);
              Incoming (Sample.request "/events" 2000 2000);
              Incoming (Sample.request "/missing" 2500 2530)] in
  let snap := (getSnapshot (Sample.host 3000 30)
                 (metrics (run (boot Sample.cores) evs))).1 in
  healthProbes evs = 0%nat /\
  Snap.totalRequests snap = 2 + 1 /\
  Snap.avgResponseMs snap =
    Math_round (inject_Z (sumZ [10%Z; 30%Z]) / inject_Z (2 + 1)%Z)%Q.
Proof.
  split; [reflexivity|].
  apply (avgResponseMs_over_all_requests Sample.cores
           [Incoming (Sample.request "/" 1000 1010);
            Incoming (Sample.request "/events" 2000 2000);
            Incoming (Sample.request "/missing" 2500 2530)]
           (Sample.host 3000 30)).
  reflexivity.
Defined.

(** ** Printing with a fixed number of decimals *)

Lemma Qle_bool_comp (x y : Q) : (x == y)%Q -> Qle_bool 0 x = Qle_bool 0 y.
Proof.
  intros Hxy.
  destruct (Qle_bool 0 x) eqn:Ex, (Qle_bool 0 y) eqn:Ey; try reflexivity.
  - apply Qle_bool_iff in Ex. rewrite Hxy in Ex.
    apply Qle_bool_iff in Ex. congruence.
  - apply Qle_bool_iff in Ey. rewrite <- Hxy in Ey.
    apply Qle_bool_iff in Ey. congruence.
Qed.

Lemma toFixed_comp (d : nat) (x y : Q) :
  (x == y)%Q -> toFixed d x = toFixed d y.
Proof.
  intros Hxy. unfold toFixed. rewrite (Qle_bool_comp x y Hxy).
  destruct (Qle_bool 0 y).
  - apply Qfloor_comp. rewrite Hxy. reflexivity.
  - f_equal. apply Qfloor_comp. rewrite Hxy. reflexivity.
Qed.

Lemma inject_Z_nonneg (a : Z) : 0 <= a -> (0 <= inject_Z a)%Q.
Proof. intros Ha. unfold Qle, inject_Z. simpl. lia. Qed.

(** For a share [a] of a positive whole [b], the model's [pct] prints the tenths
    nearest to 1000a/b, the larger on a tie. *)
Lemma pct_closed (a b : Z) :
  0 <= a -> 0 < b -> pct a b = PctFixed ((2000 * a + b) / (2 * b)).
Proof.
  intros Ha Hb. unfold pct.
  destruct (Z.eqb_spec b 0) as [->|_]; [lia|].
  f_equal. unfold toFixed.
  assert (0 <= inject_Z a / inject_Z b * 100)%Q as Hpos.
  { apply Qmult_le_0_compat; [|discriminate].
    apply Qmult_le_0_compat; [apply inject_Z_nonneg; exact Ha|].
    apply Qinv_le_0_compat, inject_Z_nonneg. lia. }
  apply Qle_bool_iff in Hpos. rewrite Hpos.
  rewrite <- Qfloor_div. apply Qfloor_comp.
  change (inject_Z (10 ^ Z.of_nat 1)) with (inject_Z 10).
  repeat (rewrite inject_Z_plus || rewrite inject_Z_mult).
  field. apply inject_Z_nonzero. lia.
Qed.

Lemma pct_range (a b : Z) :
  0 <= a <= b ->
  (0 <= pctValue (pct a b))%Q /\ (pctValue (pct a b) <= 100)%Q.
Proof.
  intros [Ha Hab]. destruct (Z.eq_dec b 0) as [->|Hb].
  - replace a with 0 by lia. split; discriminate.
  - rewrite pct_closed by lia. cbn [pctValue]. unfold fixedValue.
    change (inject_Z (10 ^ Z.of_nat 1)) with (inject_Z 10).
    assert (0 <= (2000 * a + b) / (2 * b) <= 1000) as [Hlo Hhi].
    { split.
      - apply Z.div_pos; lia.
      - apply Z.lt_succ_r, Z.div_lt_upper_bound; lia. }
    split.
    + apply Qle_shift_div_l; [reflexivity|].
      rewrite Qmult_0_l. apply inject_Z_nonneg, Hlo.
    + apply Qle_shift_div_r; [reflexivity|].
      change (100 * inject_Z 10)%Q with (inject_Z 1000).
      rewrite <- Zle_Qle. exact Hhi.
Qed.

(** The scenario of three requests answered 200, 200 and 404 in 10, 20 and
    30 ms. *)
Example three_requests :
  let evs := [Incoming (Sample.request "/" 1000 1010);
              Incoming (Sample.request "/dashboard" 2000 2020);
              Incoming (Sample.request "/nowhere" 3000 3030)] in
  let snap := (getSnapshot (Sample.host 4000 30)
                 (metrics (run (boot Sample.cores) evs))).1 in
  Snap.totalRequests snap = 3 /\ Snap.errorCount snap = 1 /\
  Snap.avgResponseMs snap = 20 /\
  Snap.successRate snap = PctFixed 667 /\
  Snap.errorRate snap = PctFixed 333 /\
  Snap.minResponseMs snap = 10 /\ Snap.maxResponseMs snap = 30.
Proof. vm_compute. repeat split. Qed.

(** ** C2: success and error rates *)



(** ** C4: lifetime requests per minute *)




(** ** C10: errors never outnumber requests *)

Lemma step_errors_within_requests (s : Server) (ev : Event) :
  0 <= errorCount (metrics s) <= requestCount (metrics s) ->
  0 <= errorCount (metrics (step s ev)) <= requestCount (metrics (step s ev)).
Proof. intros H. step_cases ev; lia. Qed.

(** C10. In every state the server reaches from its start, by any
    sequence of requests, timer ticks and stream closes, errorCount is
    between 0 and totalRequests; hence successCount is not negative and
    successRate and errorRate both lie between 0 and 100. *)
Theorem errors_within_requests
    (cpus0 : list Cpu) (evs : list Event) (e : Env) :
  let m := metrics (run (boot cpus0) evs) in
  let snap := (getSnapshot e m).1 in
  0 <= errorCount m <= requestCount m /\
  0 <= Snap.successCount snap /\
  (0 <= pctValue (Snap.successRate snap))%Q /\
  (pctValue (Snap.successRate snap) <= 100)%Q /\
  (0 <= pctValue (Snap.errorRate snap))%Q /\
  (pctValue (Snap.errorRate snap) <= 100)%Q.
Proof.
  intros m snap. subst snap.
  assert (0 <= errorCount m <= requestCount m) as Hinv.
  { subst m.
    apply (run_invariant
             (fun s => 0 <= errorCount (metrics s) <= requestCount (metrics s))).
    - intros s ev. apply step_errors_within_requests.
    - cbn. lia. }
  destruct (snapshot_rates e m) as (Hs & He & Hc & _).
  rewrite Hs, He, Hc.
  destruct (pct_range (requestCount m - errorCount m) (requestCount m))
    as [Hs1 Hs2]; [lia|].
  destruct (pct_range (errorCount m) (requestCount m)) as [He1 He2]; [lia|].
  repeat split; try assumption; lia.
Qed.

(** ** C3: stored minimum and maximum *)

Lemma step_extremaOrdered (s : Server) (ev : Event) :
  extremaOrdered (metrics s) -> extremaOrdered (metrics (step s ev)).
Proof.
  unfold extremaOrdered. intros H.
  step_cases ev; try exact H;
    revert H; destruct (minResponseTime (metrics s)); cbn; lia.
Qed.

(** C3, counterexample. After a single [/events] request one request has
    been counted, the stored minimum is still +Infinity and the stored
    maximum is still 0: the minimum is not below the maximum. *)
Lemma min_above_max_after_stream :
  let m := metrics (run (boot Sample.cores)
                      [Incoming (Sample.request "/events" 1000 1000)]) in
  0 < requestCount m /\
  minResponseTime m = PInf /\ maxResponseTime m = 0 /\
  ~ ext_le (minResponseTime m) (maxResponseTime m).
Proof. vm_compute. repeat split; try discriminate. intros H. exact H. Qed.

(** C3, amended. In every reachable state the stored minimum response
    time, once it is no longer the initial +Infinity (a response time has
    been recorded), is at most the stored maximum; while it is +Infinity
    the maximum is 0, whatever the number of requests counted.  The
    snapshot, which reports 0 for an infinite minimum, always has
    minResponseMs <= maxResponseMs. *)
Theorem min_le_max_once_recorded
    (cpus0 : list Cpu) (evs : list Event) (e : Env) :
  let m := metrics (run (boot cpus0) evs) in
  let snap := (getSnapshot e m).1 in
  match minResponseTime m with
  | Fin lo => ext_le (minResponseTime m) (maxResponseTime m)
  | PInf => maxResponseTime m = 0
  end /\
  Snap.minResponseMs snap <= Snap.maxResponseMs snap.
Proof.
  intros m snap. subst snap.
  assert (extremaOrdered m) as Hinv.
  { subst m. apply (run_invariant (fun s => extremaOrdered (metrics s))).
    - intros s ev. apply step_extremaOrdered.
    - reflexivity. }
  destruct (snapshot_extrema e m) as [Hlo Hhi]. rewrite Hlo, Hhi.
  unfold extremaOrdered in Hinv.
  destruct (minResponseTime m); cbn; split; try assumption; lia.
Qed.

(** ** C6: the sliding windows *)

Lemma prune_In (w now t : Z) (arr : list Z) :
  In t (prune w now arr) <-> In t arr /\ now - t < w.
Proof.
  unfold prune. rewrite List.filter_In, Z.ltb_lt. reflexivity.
Qed.

Lemma prune_replicate_keep (w now T : Z) (k : nat) :
  now - T < w -> prune w now (replicate k T) = replicate k T.
Proof.
  intros H. induction k as [|k IH]; [reflexivity|].
  cbn. destruct (Z.ltb_spec (now - T) w); [|lia].
  unfold prune in IH. rewrite IH. reflexivity.
Qed.

Lemma prune_replicate_drop (w now T : Z) (k : nat) :
  w <= now - T -> prune w now (replicate k T) = [].
Proof.
  intros H. induction k as [|k IH]; [reflexivity|].
  cbn. destruct (Z.ltb_spec (now - T) w); [lia|]. exact IH.
Qed.

Lemma replicate_snoc (k : nat) (T : Z) :
  replicate k T ++ [T] = replicate (S k) T.
Proof. induction k as [|k IH]; [reflexivity|]. cbn. rewrite IH. reflexivity. Qed.

(** A request handled at time [T] adds one entry [T] to each window. *)
Lemma handler_records (T : Z) (r : Request) (s : Server) (k : nat) :
  atTime T r ->
  lastMinuteRequests (metrics s) = replicate k T ->
  lastHourRequests (metrics s) = replicate k T ->
  lastMinuteRequests (metrics (handler r s)) = replicate (S k) T /\
  lastHourRequests (metrics (handler r s)) = replicate (S k) T.
Proof.
  intros (Hm & Hh & Hc) Hmin Hhour.
  unfold handler; repeat case_bool_decide; unfold sendData; snap_split;
    cbn -[prune replicate];
    rewrite ?Hmin, ?Hhour, ?Hm, ?Hh, ?Hc, !replicate_snoc;
    rewrite ?prune_replicate_keep by lia; split; reflexivity.
Qed.

Lemma requests_record (T : Z) (rs : list Request) :
  Forall (atTime T) rs ->
  forall (s : Server) (k : nat),
  lastMinuteRequests (metrics s) = replicate k T ->
  lastHourRequests (metrics s) = replicate k T ->
  lastMinuteRequests (metrics (run s (Incoming <$> rs)))
    = replicate (k + length rs) T /\
  lastHourRequests (metrics (run s (Incoming <$> rs)))
    = replicate (k + length rs) T.
Proof.
  induction 1 as [|r rs Hr _ IH]; intros s k Hmin Hhour.
  - cbn. rewrite Nat.add_0_r. split; assumption.
  - cbn [fmap list_fmap length]. rewrite run_cons. cbn [step].
    destruct (handler_records T r s k Hr Hmin Hhour) as [Hmin' Hhour'].
    replace (k + S (length rs))%nat with (S k + length rs)%nat by lia.
    apply IH; assumption.
Qed.

(** C6. K requests handled at time T put K entries T into the one-minute
    and the one-hour window; a snapshot taken at T + W - 1 then counts K
    and a snapshot taken at T + W + 1 counts 0, for W = 60000 (rpm) and
    W = 3600000 (rph), and so does pruning for every window length W.
    Pruning keeps exactly the entries with now - t < W, that is, it
    discards exactly those with now - t >= W. *)
Theorem window_counts (cpus0 : list Cpu) (T : Z) (rs : list Request) (e : Env) :
  Forall (atTime T) rs ->
  let K := length rs in
  let m := metrics (run (boot cpus0) (Incoming <$> rs)) in
  Snap.rpm (getSnapshot (askedAt (T + 60000 - 1) e) m).1 = Z.of_nat K /\
  Snap.rpm (getSnapshot (askedAt (T + 60000 + 1) e) m).1 = 0 /\
  Snap.rph (getSnapshot (askedAt (T + 3600000 - 1) e) m).1 = Z.of_nat K /\
  Snap.rph (getSnapshot (askedAt (T + 3600000 + 1) e) m).1 = 0 /\
  (forall (W : Z) (k : nat),
     length (prune W (T + W - 1) (replicate k T)) = k /\
     length (prune W (T + W + 1) (replicate k T)) = 0%nat) /\
  (forall (W now t : Z) (arr : list Z),
     In t (prune W now arr) <-> In t arr /\ ~ now - t >= W).
Proof.
  intros Hrs K m. subst K m.
  destruct (requests_record T rs Hrs (boot cpus0) 0 eq_refl eq_refl)
    as [Hmin Hhour].
  rewrite Nat.add_0_l in Hmin, Hhour.
  split; [|split; [|split; [|split; [|split]]]].
  - destruct (snapshot_windows (askedAt (T + 60000 - 1) e)
                (metrics (run (boot cpus0) (Incoming <$> rs)))) as [-> _].
    cbn [askedAt cleanupNow]. rewrite Hmin, prune_replicate_keep by lia.
    rewrite length_replicate. reflexivity.
  - destruct (snapshot_windows (askedAt (T + 60000 + 1) e)
                (metrics (run (boot cpus0) (Incoming <$> rs)))) as [-> _].
    cbn [askedAt cleanupNow]. rewrite Hmin, prune_replicate_drop by lia.
    reflexivity.
  - destruct (snapshot_windows (askedAt (T + 3600000 - 1) e)
                (metrics (run (boot cpus0) (Incoming <$> rs)))) as [_ ->].
    cbn [askedAt cleanupNow]. rewrite Hhour, prune_replicate_keep by lia.
    rewrite length_replicate. reflexivity.
  - destruct (snapshot_windows (askedAt (T + 3600000 + 1) e)
                (metrics (run (boot cpus0) (Incoming <$> rs)))) as [_ ->].
    cbn [askedAt cleanupNow]. rewrite Hhour, prune_replicate_drop by lia.
    reflexivity.
  - intros W k. split.
    + rewrite prune_replicate_keep by lia. apply length_replicate.
    + rewrite prune_replicate_drop by lia. reflexivity.
  - intros W now t arr. rewrite prune_In. split; intros [H1 H2];
      (split; [exact H1 | lia]).
Qed.

Lemma window_counts_witness :
  let rs := [Sample.request "/" 1000 1010;
             Sample.request "/api/snapshot" 1000 1005] in
  let m := metrics (run (boot Sample.cores) (Incoming <$> rs)) in
  Forall (atTime 1000) rs /\
  Snap.rpm (getSnapshot (askedAt (1000 + 60000 - 1) (Sample.host 0 30)) m).1
    = 2 /\
  Snap.rpm (getSnapshot (askedAt (1000 + 60000 + 1) (Sample.host 0 30)) m).1
    = 0.
Proof.
  assert (Forall (atTime 1000)
            [Sample.request "/" 1000 1010;
             Sample.request "/api/snapshot" 1000 1005]) as Hrs.
  { repeat constructor. }
  split; [exact Hrs|].
  destruct (window_counts Sample.cores 1000 _ (Sample.host 0 30) Hrs)
    as (H1 & H2 & _).
  split; [exact H1 | exact H2].
Defined.

(** ** C9: closing an event stream *)

Lemma not_in_cleared (i : nat) (t : gset nat) : i ∉ t ∖ {[i]}.
Proof.
  rewrite elem_of_difference, elem_of_singleton. intros [_ H]. apply H.
  reflexivity.
Qed.

Lemma not_in_armed (i j : nat) (t : gset nat) :
  i <> j -> i ∉ t -> i ∉ {[j]} ∪ t.
Proof.
  intros Hij Hi. rewrite elem_of_union, elem_of_singleton. intros [H|H].
  - exact (Hij H).
  - exact (Hi H).
Qed.

Lemma still_not_in (i j : nat) (t : gset nat) : i ∉ t -> i ∉ t ∖ {[j]}.
Proof. intros Hi. rewrite elem_of_difference. intros [H _]. exact (Hi H). Qed.

Lemma writtenTo_snoc (i j : nat) (snap : Snap.t) (s : Server) (m : Metrics)
    (t : gset nat) (n : nat) :
  writtenTo i (mkServer m t n (written s ++ [(j, snap)])) =
  writtenTo i s ++ (if bool_decide (j = i) then [snap] else []).
Proof.
  unfold writtenTo. cbn [written]. rewrite List.filter_app, fmap_app.
  cbn. case_bool_decide; reflexivity.
Qed.

Lemma writtenTo_same (i : nat) (s : Server) (m : Metrics) (t : gset nat)
    (n : nat) :
  writtenTo i (mkServer m t n (written s)) = writtenTo i s.
Proof. reflexivity. Qed.

(** Opening a stream counts one connection, writes one snapshot to the
    new stream at once and arms its timer. *)
Lemma handler_opens_stream (r : Request) (s : Server) :
  url r = "/events" ->
  activeConnections (metrics (handler r s))
    = activeConnections (metrics s) + 1 /\
  nextStream (handler r s) = S (nextStream s) /\
  nextStream s ∈ timers (handler r s) /\
  length (writtenTo (nextStream s) (handler r s))
    = S (length (writtenTo (nextStream s) s)).
Proof.
  intros Hu. unfold handler. repeat case_bool_decide; try congruence.
  unfold sendData. snap_split. cbn [orb metrics nextStream timers].
  rewrite writtenTo_snoc, length_app.
  case_bool_decide; [|congruence].
  repeat split; cbn; try lia.
  apply elem_of_union. left. apply elem_of_singleton. reflexivity.
Qed.

Lemma step_connections (s : Server) (ev : Event) :
  activeConnections (metrics (step s ev))
    = activeConnections (metrics s) + connectionChange (nextStream s) ev /\
  nextStream (step s ev) = (if opens ev then S (nextStream s) else nextStream s).
Proof.
  destruct ev as [r | i e len | i | n]; cbn [step connectionChange opens].
  - unfold handler, streaming. repeat case_bool_decide; try congruence;
      unfold sendData; snap_split; cbn; split; reflexivity || lia.
  - case_bool_decide; [|split; [lia | reflexivity]].
    unfold sendData. snap_split. cbn. split; [lia | reflexivity].
  - case_bool_decide; cbn; split; reflexivity || lia.
  - cbn. split; [lia | reflexivity].
Qed.

Lemma run_connections (evs : list Event) :
  forall s : Server,
  activeConnections (metrics (run s evs))
    = activeConnections (metrics s) + connectionsDelta (nextStream s) evs /\
  (nextStream s <= nextStream (run s evs))%nat.
Proof.
  induction evs as [|ev evs IH]; intros s.
  - cbn. split; lia.
  - rewrite run_cons. cbn [connectionsDelta].
    destruct (IH (step s ev)) as [Hac Hn].
    destruct (step_connections s ev) as [Hac1 Hn1].
    rewrite Hac, Hac1, Hn1. rewrite Hn1 in Hn.
    split; [lia|]. destruct (opens ev); lia.
Qed.

(** Events that neither open nor close a stream leave the number of
    connections alone. *)
Lemma connectionsDelta_quiet (evs : list Event) :
  forallb quiet evs = true -> forall n : nat, connectionsDelta n evs = 0.
Proof.
  induction evs as [|ev evs IH]; intros Hq n; [reflexivity|].
  cbn [forallb] in Hq. apply andb_true_iff in Hq as [Hev Hevs].
  cbn [connectionsDelta].
  destruct ev as [r | | |]; cbn in Hev |- *; try discriminate.
  - apply negb_true_iff in Hev. rewrite Hev. rewrite IH by exact Hevs. lia.
  - rewrite IH by exact Hevs. lia.
  - rewrite IH by exact Hevs. lia.
Qed.

Lemma step_cleared (i : nat) (s : Server) (ev : Event) :
  cleared i s ->
  cleared i (step s ev) /\ writtenTo i (step s ev) = writtenTo i s.
Proof.
  unfold cleared. intros [Hout Hlt].
  destruct ev as [r | j e len | j | n]; cbn [step];
    [| | | split; [split; assumption | reflexivity]].
  - unfold handler. repeat case_bool_decide; try congruence;
      unfold sendData; snap_split;
      cbn [orb timers nextStream]; rewrite ?writtenTo_snoc, ?writtenTo_same;
      try (split; [split; [exact Hout | lia] | reflexivity]).
    case_bool_decide; [lia|]. rewrite app_nil_r.
    split; [split; [|lia] | reflexivity].
    apply not_in_armed; [lia | exact Hout].
  - case_bool_decide as Hj; [|split; [split; assumption | reflexivity]].
    unfold sendData. snap_split. cbn [timers nextStream].
    rewrite writtenTo_snoc.
    case_bool_decide as Hji; [subst j; contradiction|].
    rewrite app_nil_r. split; [split; assumption | reflexivity].
  - case_bool_decide; [|split; [split; assumption | reflexivity]].
    cbn [timers nextStream]. rewrite writtenTo_same.
    split; [split; [apply still_not_in, Hout | exact Hlt] | reflexivity].
Qed.

Lemma run_cleared (i : nat) (evs : list Event) :
  forall s : Server,
  cleared i s ->
  cleared i (run s evs) /\ writtenTo i (run s evs) = writtenTo i s.
Proof.
  induction evs as [|ev evs IH]; intros s Hs.
  - split; [exact Hs | reflexivity].
  - rewrite run_cons. destruct (step_cleared i s ev Hs) as [Hc Hw].
    destruct (IH (step s ev) Hc) as [Hc' Hw'].
    split; [exact Hc' | congruence].
Qed.

(** The [close] listener of a stream that was opened. *)
Lemma step_close (i : nat) (s : Server) :
  (i < nextStream s)%nat ->
  activeConnections (metrics (step s (Close i)))
    = activeConnections (metrics s) - 1 /\
  cleared i (step s (Close i)) /\
  writtenTo i (step s (Close i)) = writtenTo i s.
Proof.
  intros Hlt. cbn [step]. case_bool_decide; [|contradiction].
  unfold cleared. cbn. repeat split; [apply not_in_cleared | exact Hlt].
Qed.

(** C9. A stream is opened in any state, any events follow, and then the
    stream's [close] is processed.  From then on no event whatsoever
    writes a snapshot to that stream and its timer is not armed again;
    the stream's own opening and closing cancel out in activeConnections,
    which differs from its value before the opening only by what other
    streams opened and closed in between.  When the close follows at once,
    before any tick, activeConnections is back at its earlier value, and
    the stream has received the one snapshot sent on opening and receives
    none afterwards. *)
Theorem close_stops_pushes
    (s : Server) (r : Request) (mid after : list Event) :
  url r = "/events" ->
  let i := nextStream s in
  let closed := run s (Incoming r :: mid ++ [Close i]) in
  let closedAtOnce := run s [Incoming r; Close i] in
  (i ∉ timers (run closed after)) /\
  writtenTo i (run closed after) = writtenTo i closed /\
  activeConnections (metrics closed)
    = activeConnections (metrics s) + connectionsDelta (S i) mid /\
  activeConnections (metrics (run s [Incoming r]))
    = activeConnections (metrics s) + 1 /\
  activeConnections (metrics closedAtOnce) = activeConnections (metrics s) /\
  length (writtenTo i (run closedAtOnce after)) = S (length (writtenTo i s)).
Proof.
  intros Hu i closed closedAtOnce. subst i closed closedAtOnce.
  destruct (handler_opens_stream r s Hu) as (Hac & Hnext & _ & Hlen).
  rewrite run_cons, run_app. cbn [step].
  destruct (run_connections mid (handler r s)) as [Hac' Hnext'].
  set (opened := run (handler r s) mid) in *.
  assert (nextStream s < nextStream opened)%nat as Hlt by lia.
  destruct (step_close (nextStream s) opened Hlt) as (Hac'' & Hcl & _).
  change (run opened [Close (nextStream s)])
    with (step opened (Close (nextStream s))).
  destruct (run_cleared (nextStream s) after _ Hcl) as [[Hout _] Hw].
  split; [exact Hout|]. split; [exact Hw|].
  split; [rewrite Hac'', Hac', Hac, Hnext; lia|].
  split; [exact Hac|].
  change (run s [Incoming r; Close (nextStream s)])
    with (step (handler r s) (Close (nextStream s))).
  assert (nextStream s < nextStream (handler r s))%nat as Hlt0 by lia.
  destruct (step_close (nextStream s) (handler r s) Hlt0)
    as (Hac0 & Hcl0 & Hw0).
  destruct (run_cleared (nextStream s) after _ Hcl0) as [_ Hw1].
  split; [lia|]. rewrite Hw1, Hw0. exact Hlen.
Qed.

Lemma close_stops_pushes_witness :
  let s := boot Sample.cores in
  let r := Sample.request "/events" 1000 1000 in
  let mid := [TimerFire 0 (Sample.host 3000 32) 512;
              Incoming (Sample.request "/events" 3500 3500)] in
  let after := [TimerFire 0 (Sample.host 5000 34) 512;
                TimerFire 1 (Sample.host 5500 34) 512;
                Incoming (Sample.request "/health" 6000 6001)] in
  let closed := run s (Incoming r :: mid ++ [Close 0]) in
  url r = "/events" /\
  activeConnections (metrics closed) = 1 /\
  length (writtenTo 0 closed) = 2%nat /\
  writtenTo 0 (run closed after) = writtenTo 0 closed /\
  length (writtenTo 1 (run closed after)) = 2%nat.
Proof.
  split; [reflexivity|].
  destruct (close_stops_pushes (boot Sample.cores)
              (Sample.request "/events" 1000 1000)
              [TimerFire 0 (Sample.host 3000 32) 512;
               Incoming (Sample.request "/events" 3500 3500)]
              [TimerFire 0 (Sample.host 5000 34) 512;
               TimerFire 1 (Sample.host 5500 34) 512;
               Incoming (Sample.request "/health" 6000 6001)]
              eq_refl) as (_ & Hw & Hac & _).
  split; [exact Hac|]. split; [vm_compute; reflexivity|].
  split; [exact Hw|]. vm_compute. reflexivity.
Defined.

(** * Further properties of the code *)

(** ** Durations *)

Lemma Qfloor_nonneg (x : Q) : (0 <= x)%Q -> 0 <= Qfloor x.
Proof. intros H. apply (Qfloor_resp_le 0 x) in H. exact H. Qed.

(** [formatDuration] splits a non-negative number of seconds into days,
    hours below 24, minutes below 60 and seconds below 60 that add up to
    the whole seconds, and prints the units from the largest one that is
    needed: seconds alone below a minute, minutes and seconds below an
    hour, hours to seconds below a day, all four from one day on. *)
Theorem formatDuration_units (sec : Q) :
  (0 <= sec)%Q ->
  let n := Qfloor sec in
  let '(d, h, m, s) := durationParts n in
  d * 86400 + h * 3600 + m * 60 + s = n /\
  0 <= d /\ 0 <= h < 24 /\ 0 <= m < 60 /\ 0 <= s < 60 /\
  formatDuration sec =
    (if n <? 60 then pretty s +:+ "s"
     else if n <? 3600 then pretty m +:+ "m " +:+ pretty s +:+ "s"
     else if n <? 86400
     then pretty h +:+ "h " +:+ pretty m +:+ "m " +:+ pretty s +:+ "s"
     else pretty d +:+ "d " +:+ pretty h +:+ "h " +:+ pretty m +:+ "m "
          +:+ pretty s +:+ "s").
Proof.
  intros Hsec n. subst n. unfold formatDuration, durationParts.
  pose proof (Qfloor_nonneg sec Hsec) as Hn.
  set (n := Qfloor sec) in *.
  rewrite !Z.rem_mod_nonneg by lia.
  assert (n / 86400 * 86400 + n mod 86400 / 3600 * 3600
          + n mod 3600 / 60 * 60 + n mod 60 = n) as Hsum.
  { pose proof (Z.div_mod n 86400). pose proof (Z.div_mod (n mod 86400) 3600).
    pose proof (Z.div_mod (n mod 3600) 60).
    assert ((n mod 86400) mod 3600 = n mod 3600) as E1.
    { apply Z.mod_mod_divide. exists 24. reflexivity. }
    assert ((n mod 3600) mod 60 = n mod 60) as E2.
    { apply Z.mod_mod_divide. exists 60. reflexivity. }
    lia. }
  pose proof (Z.mod_pos_bound n 86400). pose proof (Z.mod_pos_bound n 3600).
  pose proof (Z.mod_pos_bound n 60).
  assert (0 <= n / 86400) by (apply Z.div_pos; lia).
  assert (0 <= n mod 86400 / 3600 < 24).
  { split; [apply Z.div_pos; lia | apply Z.div_lt_upper_bound; lia]. }
  assert (0 <= n mod 3600 / 60 < 60).
  { split; [apply Z.div_pos; lia | apply Z.div_lt_upper_bound; lia]. }
  repeat split; try lia.
  destruct (Z.ltb_spec n 60), (Z.ltb_spec n 3600), (Z.ltb_spec n 86400);
    try lia;
    destruct (Z.ltb_spec 0 (n / 86400)), (Z.ltb_spec 0 (n mod 86400 / 3600)),
             (Z.ltb_spec 0 (n mod 3600 / 60));
    try reflexivity; exfalso.
  all: try (assert (n / 86400 = 0) by (apply Z.div_small; lia); lia).
  all: try (assert (n mod 86400 / 3600 = 0)
              by (apply Z.div_small; rewrite Z.mod_small by lia; lia); lia).
  all: try (assert (n mod 3600 / 60 = 0)
              by (apply Z.div_small; rewrite Z.mod_small by lia; lia); lia).
  all: try (assert (1 <= n / 86400)
              by (apply Z.div_le_lower_bound; lia); lia).
  all: try (assert (1 <= n mod 86400 / 3600)
              by (apply Z.div_le_lower_bound;
                  [lia | rewrite Z.mod_small by lia; lia]); lia).
  all: try (assert (1 <= n mod 3600 / 60)
              by (apply Z.div_le_lower_bound;
                  [lia | rewrite Z.mod_small by lia; lia]); lia).
Qed.

Lemma formatDuration_units_witness :
  (0 <= 93784 # 1)%Q /\
  durationParts (Qfloor (93784 # 1)) = (1, 2, 3, 4) /\
  formatDuration (93784 # 1) = "1d 2h 3m 4s".
Proof.
  split; [discriminate|].
  pose proof (formatDuration_units (93784 # 1)) as H.
  split; [reflexivity|].
  assert (0 <= 93784 # 1)%Q as Hpos by discriminate.
  specialize (H Hpos). cbv zeta in H.
  destruct (durationParts (Qfloor (93784 # 1))) as [[[d h] m] s] eqn:E.
  destruct H as (_ & _ & _ & _ & _ & ->).
  vm_compute in E. injection E as <- <- <- <-. vm_compute. reflexivity.
Defined.

(** The older [formatDuration] has no day unit: hours are unbounded,
    minutes and seconds stay below 60, the three add up to the whole
    seconds, and all three are always printed. *)
Theorem legacy_formatDuration_units (sec : Q) :
  (0 <= sec)%Q ->
  let n := Qfloor sec in
  let '(h, m, s) := ServerJs.durationParts n in
  h * 3600 + m * 60 + s = n /\
  0 <= h /\ 0 <= m < 60 /\ 0 <= s < 60 /\
  ServerJs.formatDuration sec =
    pretty h +:+ "h " +:+ pretty m +:+ "m " +:+ pretty s +:+ "s".
Proof.
  intros Hsec n. subst n. unfold ServerJs.formatDuration, ServerJs.durationParts.
  pose proof (Qfloor_nonneg sec Hsec) as Hn.
  set (n := Qfloor sec) in *.
  rewrite !Z.rem_mod_nonneg by lia.
  pose proof (Z.div_mod n 3600). pose proof (Z.div_mod (n mod 3600) 60).
  assert ((n mod 3600) mod 60 = n mod 60) as E2.
  { apply Z.mod_mod_divide. exists 60. reflexivity. }
  pose proof (Z.mod_pos_bound n 3600). pose proof (Z.mod_pos_bound n 60).
  assert (0 <= n / 3600) by (apply Z.div_pos; lia).
  assert (0 <= n mod 3600 / 60 < 60).
  { split; [apply Z.div_pos; lia | apply Z.div_lt_upper_bound; lia]. }
  repeat split; try lia.
Qed.

Lemma legacy_formatDuration_units_witness :
  (0 <= 93784 # 1)%Q /\
  ServerJs.formatDuration (93784 # 1) = "26h 3m 4s".
Proof.
  split; [discriminate|].
  assert (0 <= 93784 # 1)%Q as Hpos by discriminate.
  pose proof (legacy_formatDuration_units (93784 # 1) Hpos) as H.
  cbv zeta in H.
  destruct (ServerJs.durationParts (Qfloor (93784 # 1))) as [[h m] s] eqn:E.
  destruct H as (_ & _ & _ & _ & ->).
  vm_compute in E. injection E as <- <- <-. vm_compute. reflexivity.
Defined.

(** ** Byte counts *)

(** [toFixed(2)] of a non-negative quotient of integers. *)
Lemma toFixed2_div (x : Q) (b U : Z) :
  0 <= b -> 0 < U -> (x == inject_Z b / inject_Z U)%Q ->
  toFixed 2 x = (200 * b + U) / (2 * U).
Proof.
  intros Hb HU Hx. rewrite (toFixed_comp 2 _ _ Hx). unfold toFixed.
  assert (0 <= inject_Z b / inject_Z U)%Q as Hpos.
  { apply Qmult_le_0_compat; [apply inject_Z_nonneg; exact Hb|].
    apply Qinv_le_0_compat, inject_Z_nonneg. lia. }
  apply Qle_bool_iff in Hpos. rewrite Hpos.
  rewrite <- Qfloor_div. apply Qfloor_comp.
  change (inject_Z (10 ^ Z.of_nat 2)) with (inject_Z 100).
  repeat (rewrite inject_Z_plus || rewrite inject_Z_mult).
  field. apply inject_Z_nonzero. lia.
Qed.

Lemma scaled_figure (b U : Z) :
  0 < U -> U <= b ->
  let h := (200 * b + U) / (2 * U) in
  100 <= h /\ - U < 2 * (h * U - 100 * b) <= U.
Proof.
  intros HU Hb h. subst h.
  pose proof (Z.div_mod (200 * b + U) (2 * U)) as Hdm.
  pose proof (Z.mod_pos_bound (200 * b + U) (2 * U)) as Hm.
  split.
  - apply Z.div_le_lower_bound; lia.
  - nia.
Qed.

(** [formatBytes] shows a non-negative count below 1024 as it is, and any
    larger count in the largest unit that it reaches (KB, MB or GB, in
    powers of 1024), as a two-decimal figure that is at least 1.00 and
    differs from the exact quotient by at most half a hundredth.  Below
    the next unit the figure can round up to 1024.00. *)
Theorem formatBytes_figure (bytes : Z) :
  0 <= bytes ->
  match formatBytes bytes with
  | Whole n => n = bytes /\ bytes < 1024
  | Scaled h u =>
      unitSize u <= bytes /\
      (u = GB \/ bytes < 1024 * unitSize u) /\
      h = (200 * bytes + unitSize u) / (2 * unitSize u) /\
      100 <= h /\
      - unitSize u < 2 * (h * unitSize u - 100 * bytes) <= unitSize u
  end.
Proof.
  intros Hb. unfold formatBytes.
  destruct (Z.leb_spec 1073741824 bytes) as [H3|H3];
    [|destruct (Z.leb_spec 1048576 bytes) as [H2|H2];
      [|destruct (Z.leb_spec 1024 bytes) as [H1|H1]]].
  - assert (gb bytes = (200 * bytes + unitSize GB) / (2 * unitSize GB)) as E.
    { unfold gb. apply toFixed2_div; [lia | reflexivity |].
      change (inject_Z (unitSize GB)) with (1024 * 1024 * 1024)%Q.
      field. }
    rewrite E. destruct (scaled_figure bytes (unitSize GB)) as [Ha Hc];
      [reflexivity | exact H3 |].
    repeat split; auto; try lia.
  - assert (mb bytes = (200 * bytes + unitSize MB) / (2 * unitSize MB)) as E.
    { unfold mb. apply toFixed2_div; [lia | reflexivity |].
      change (inject_Z (unitSize MB)) with (1024 * 1024)%Q.
      field. }
    rewrite E. destruct (scaled_figure bytes (unitSize MB)) as [Ha Hc];
      [reflexivity | exact H2 |].
    repeat split; auto; try lia; try (right; exact H3).
  - assert (kb bytes = (200 * bytes + unitSize KB) / (2 * unitSize KB)) as E.
    { unfold kb. apply toFixed2_div; [lia | reflexivity |]. reflexivity. }
    rewrite E. destruct (scaled_figure bytes (unitSize KB)) as [Ha Hc];
      [reflexivity | exact H1 |].
    repeat split; auto; try lia; try (right; exact H2).
  - split; [reflexivity | exact H1].
Qed.

Lemma formatBytes_figure_witness :
  0 <= 1048575 /\ formatBytes 1048575 = Scaled 102400 KB /\
  - unitSize KB < 2 * (102400 * unitSize KB - 100 * 1048575) <= unitSize KB.
Proof.
  assert (formatBytes 1048575 = Scaled 102400 KB) as E
    by (vm_compute; reflexivity).
  split; [lia|]. split; [exact E|].
  pose proof (formatBytes_figure 1048575 ltac:(lia)) as H.
  rewrite E in H. destruct H as (_ & _ & _ & _ & H). exact H.
Defined.

(** ** Host descriptions *)

(** [getCPUDetails] never reports an empty model name, reports the speed
    of the first core, and its physicalCores is half the number of cores
    for every list of cores: the fallback to the full number only applies
    to an empty list, where both are 0.  For an empty list the answer is
    ("Unknown", 0, 0, 0). *)
Theorem getCPUDetails_defaults (cpus : list CpuInfo) :
  let d := getCPUDetails cpus in
  detailModel d <> "" /\
  detailSpeed d = default 0 (speed <$> cpus !! 0%nat) /\
  cores d = Z.of_nat (length cpus) /\
  (physicalCores d * 2 == inject_Z (cores d))%Q /\
  getCPUDetails [] = mkCpuDetails "Unknown" 0 0 0.
Proof.
  intros d. subst d. unfold getCPUDetails. cbn [detailModel detailSpeed cores
    physicalCores]. repeat split.
  - destruct (cpus !! 0%nat) as [c|]; [|discriminate].
    case_bool_decide; [discriminate | assumption].
  - destruct (cpus !! 0%nat) as [c|]; [|reflexivity]. cbn.
    destruct (Z.eqb_spec (speed c) 0) as [->|_]; reflexivity.
  - destruct (Qeq_bool (inject_Z (Z.of_nat (length cpus)) / 2) 0) eqn:E.
    + apply Qeq_bool_iff in E.
      assert (inject_Z (Z.of_nat (length cpus)) == 0)%Q as E0.
      { assert (inject_Z (Z.of_nat (length cpus))
                == inject_Z (Z.of_nat (length cpus)) / 2 * 2)%Q as Hx by field.
        rewrite Hx, E. reflexivity. }
      rewrite E0. reflexivity.
    + field.
Qed.

Lemma pushExternal_spec (name : string) (addrs : list Address) :
  forall result : list NetworkEntry,
  pushExternal name addrs result =
  result ++ ((fun a => mkNetworkEntry name (address a) (family a) (mac a))
             <$> List.filter (fun a => negb (internal a)) addrs).
Proof.
  induction addrs as [|a rest IH]; intros result.
  - cbn. rewrite app_nil_r. reflexivity.
  - cbn [pushExternal List.filter]. rewrite IH.
    destruct (negb (internal a)).
    + rewrite <- app_assoc. reflexivity.
    + reflexivity.
Qed.

Lemma eachInterface_spec (entries : list (string * list Address)) :
  forall result : list NetworkEntry,
  eachInterface entries result =
  result ++ concat ((fun p => pushExternal p.1 p.2 []) <$> entries).
Proof.
  induction entries as [|[name addrs] rest IH]; intros result.
  - cbn. rewrite app_nil_r. reflexivity.
  - cbn [eachInterface fmap list_fmap concat fst snd]. rewrite IH.
    rewrite (pushExternal_spec name addrs result),
            (pushExternal_spec name addrs []).
    rewrite app_nil_l, <- app_assoc. reflexivity.
Qed.

(** [getNetworkInfo] lists exactly the addresses that are not internal,
    each with the name of its interface: an entry is in the result if and
    only if some interface has a non-internal address with these fields.
    The result has as many entries as there are such addresses, so an
    internal address never appears and no external one is lost. *)
Theorem getNetworkInfo_external (interfaces : list (string * list Address))
    (entry : NetworkEntry) :
  (In entry (getNetworkInfo interfaces) <->
   exists name addrs a,
     In (name, addrs) interfaces /\ In a addrs /\ internal a = false /\
     entry = mkNetworkEntry name (address a) (family a) (mac a)) /\
  length (getNetworkInfo interfaces) =
    length (List.filter (fun a => negb (internal a))
              (concat (snd <$> interfaces))).
Proof.
  unfold getNetworkInfo. rewrite eachInterface_spec, app_nil_l. split.
  - induction interfaces as [|[name addrs] rest IH].
    + cbn. split; [intros [] | intros (? & ? & ? & [] & _)].
    + cbn [fmap list_fmap concat fst snd].
      rewrite in_app_iff, IH, pushExternal_spec, app_nil_l.
      rewrite in_map_iff. split.
      * intros [(a & <- & Ha)|(n & ad & a & Hin & Ha & Hi & ->)].
        -- apply List.filter_In in Ha as [Ha Hi].
           apply negb_true_iff in Hi.
           exists name, addrs, a. repeat split; auto. left. reflexivity.
        -- exists n, ad, a. repeat split; auto. right. exact Hin.
      * intros (n & ad & a & [Heq|Hin] & Ha & Hi & ->).
        -- injection Heq as <- <-. left. exists a. split; [reflexivity|].
           apply List.filter_In. split; [exact Ha|].
           rewrite Hi. reflexivity.
        -- right. exists n, ad, a. repeat split; auto.
  - induction interfaces as [|[name addrs] rest IH].
    + reflexivity.
    + cbn [fmap list_fmap concat fst snd].
      rewrite length_app, IH, pushExternal_spec, app_nil_l, length_fmap.
      rewrite List.filter_app, length_app. reflexivity.
Qed.

(** ** The page's history buffers *)

Lemma received_snoc (values : list Q) (v : Q) :
  Client.received (values ++ [v])
  = Client.pushHistory (Client.received values) v.
Proof. unfold Client.received. rewrite fold_left_app. reflexivity. Qed.

(** After any number of messages a history array of the page holds the
    most recent values, at most [MAX_HISTORY] = 60 of them, in the order
    of arrival. *)
Theorem history_keeps_latest (values : list Q) :
  Client.received values
    = drop (length values - Client.MAX_HISTORY) values /\
  (length (Client.received values) <= Client.MAX_HISTORY)%nat.
Proof.
  assert (Client.received values
          = drop (length values - Client.MAX_HISTORY) values) as E.
  { induction values as [|v values IH] using rev_ind; [reflexivity|].
    rewrite received_snoc, IH. unfold Client.pushHistory, Client.MAX_HISTORY.
    rewrite !length_app, length_drop. cbn [length].
    destruct (Nat.ltb_spec 60 (length values - (length values - 60) + 1))
      as [Hfull|Hroom].
    - change (@tail Q) with (@drop Q 1).
      rewrite <- drop_app_le by lia. rewrite drop_drop. f_equal. lia.
    - rewrite <- drop_app_le by lia. f_equal. lia. }
  split; [exact E|]. rewrite E, length_drop. unfold Client.MAX_HISTORY. lia.
Qed.

(** The gauge is red exactly above 95, orange above 85 up to 95, yellow
    above 70 up to 85, and green up to 70: the later tests of
    [updateGauge] override the earlier ones. *)
Theorem gaugeColor_tiers (value : Q) :
  (Client.gaugeColor value = Client.Red <-> (95 < value)%Q) /\
  (Client.gaugeColor value = Client.Orange <->
     (85 < value)%Q /\ (value <= 95)%Q) /\
  (Client.gaugeColor value = Client.Yellow <->
     (70 < value)%Q /\ (value <= 85)%Q) /\
  (Client.gaugeColor value = Client.Green <-> (value <= 70)%Q).
Proof.
  unfold Client.gaugeColor.
  destruct (gt value 70) eqn:G1, (gt value 85) eqn:G2, (gt value 95) eqn:G3;
    decide_gt;
    assert (70 < 85)%Q by reflexivity; assert (85 < 95)%Q by reflexivity;
    repeat split; intros; try discriminate; try reflexivity;
    repeat match goal with
    | H : (_ /\ _) |- _ => destruct H
    | H : ~ (?a < ?b)%Q |- (?b <= ?a)%Q => apply Qnot_lt_le, H
    | H : ~ (?a < ?b)%Q, H' : (?a < ?b)%Q |- _ => destruct (H H')
    | H : (?b <= ?a)%Q, H' : (?a < ?b)%Q |- _ =>
        destruct (Qlt_not_le _ _ H' H)
    | |- (_ <= _)%Q => apply Qnot_lt_le; assumption
    end;
    try assumption;
    try (exfalso; eauto using Qlt_trans).
Qed.

(** ** More on the health classifier and the CPU sampler *)

Lemma gt_monotone (a a' x : Q) :
  (a <= a')%Q -> gt a x = true -> gt a' x = true.
Proof.
  intros Hle H. apply gt_true in H. apply gt_true.
  exact (Qlt_le_trans _ _ _ H Hle).
Qed.

(** Raising a reading never improves the tier: if no input goes down,
    the health status does not become less severe. *)
Theorem getHealthStatus_monotone (cpu mem disk cpu' mem' disk' : Q) :
  (cpu <= cpu')%Q -> (mem <= mem')%Q -> (disk <= disk')%Q ->
  (severity (getHealthStatus cpu mem disk).1
   <= severity (getHealthStatus cpu' mem' disk').1)%nat.
Proof.
  intros Hc Hm Hd. unfold getHealthStatus.
  pose proof (gt_monotone cpu cpu' 90 Hc) as C1.
  pose proof (gt_monotone mem mem' 90 Hm) as M1.
  pose proof (gt_monotone disk disk' 95 Hd) as D1.
  pose proof (gt_monotone cpu cpu' 70 Hc) as C2.
  pose proof (gt_monotone mem mem' 70 Hm) as M2.
  pose proof (gt_monotone disk disk' 80 Hd) as D2.
  destruct (gt cpu 90), (gt mem 90), (gt disk 95);
    try rewrite (C1 eq_refl); try rewrite (M1 eq_refl);
    try rewrite (D1 eq_refl); rewrite ?orb_true_r; cbn; try lia;
    destruct (gt cpu' 90 || gt mem' 90 || gt disk' 95); cbn; try lia;
    destruct (gt cpu 70), (gt mem 70), (gt disk 80);
    try rewrite (C2 eq_refl); try rewrite (M2 eq_refl);
    try rewrite (D2 eq_refl); rewrite ?orb_true_r; cbn; try lia;
    destruct (gt cpu' 70 || gt mem' 70 || gt disk' 80); cbn; lia.
Qed.

Lemma getHealthStatus_monotone_witness :
  (72 <= 93)%Q /\ (40 <= 40)%Q /\ (10 <= 81)%Q /\
  (severity (getHealthStatus 72 40 10).1
   <= severity (getHealthStatus 93 40 81).1)%nat.
Proof.
  assert (72 <= 93)%Q as H1 by discriminate.
  assert (40 <= 40)%Q as H2 by discriminate.
  assert (10 <= 81)%Q as H3 by discriminate.
  repeat split; try assumption.
  exact (getHealthStatus_monotone 72 40 10 93 40 81 H1 H2 H3).
Defined.

Lemma advanced_sums (last cpus : list Cpu) :
  Forall2 advanced last cpus ->
  0 <= sumIdle cpus - sumIdle last
    <= sumTicks cpus - sumTicks last.
Proof.
  induction 1 as [|p c last cpus [H1 H2] _ IH].
  - cbn. lia.
  - rewrite !sumIdle_cons, !sumTicks_cons. lia.
Qed.

(** When the new reading has the cores of the stored one and no idle or
    busy counter has gone down, [cpuUsage] returns a percentage between 0
    and 100. *)
Theorem cpuUsage_is_a_percentage (last cpus : list Cpu) :
  Forall2 advanced last cpus ->
  0 <= (Dashboard.cpuUsage last cpus).1 <= 100.
Proof.
  intros Hadv. pose proof (advanced_sums last cpus Hadv) as Hs.
  pose proof (Forall2_length _ _ _ Hadv) as Hlen.
  unfold Dashboard.cpuUsage. rewrite cpuForEach_sums. cbn [fst snd].
  rewrite Nat.sub_0_r, drop_0, !Z.add_0_l.
  rewrite Hlen, firstn_all. rewrite <- Hlen, firstn_all.
  set (I := sumIdle cpus - sumIdle last) in *.
  set (T := sumTicks cpus - sumTicks last) in *.
  destruct (Z.ltb_spec 0 T) as [Hpos|_]; [|lia].
  rewrite busyPercent_closed by exact Hpos. split.
  - apply Z.div_pos; lia.
  - apply Z.lt_succ_r, Z.div_lt_upper_bound; lia.
Qed.

Lemma cpuUsage_is_a_percentage_witness :
  Forall2 advanced [mkCpu (mkTimes 1000 0 0 9000 0)]
                   [mkCpu (mkTimes 1500 0 0 9500 0)] /\
  0 <= (Dashboard.cpuUsage [mkCpu (mkTimes 1000 0 0 9000 0)]
          [mkCpu (mkTimes 1500 0 0 9500 0)]).1 <= 100.
Proof.
  assert (Forall2 advanced [mkCpu (mkTimes 1000 0 0 9000 0)]
                           [mkCpu (mkTimes 1500 0 0 9500 0)]) as H.
  { constructor; [unfold advanced, ticks; cbn; lia | constructor]. }
  split; [exact H|]. exact (cpuUsage_is_a_percentage _ _ H).
Defined.

Lemma legacy_cpuForEach_covered (last cpus : list Cpu) :
  forall (i : nat) (acc : Z * Z),
  (i + length cpus <= length last)%nat ->
  ServerJs.cpuForEach last i cpus acc
  = Some (Dashboard.cpuForEach last i cpus acc).
Proof.
  induction cpus as [|c rest IH]; intros i acc Hlen; [reflexivity|].
  cbn [length] in Hlen. cbn [ServerJs.cpuForEach Dashboard.cpuForEach].
  destruct (last !! i) as [p|] eqn:E.
  - apply IH. lia.
  - apply lookup_ge_None in E. lia.
Qed.

Lemma legacy_cpuForEach_short (last : list Cpu) (rest : list Cpu) :
  forall (c : Cpu) (i : nat) (acc : Z * Z),
  (length last < i + length (c :: rest))%nat ->
  ServerJs.cpuForEach last i (c :: rest) acc = None.
Proof.
  induction rest as [|c' rest IH]; intros c i acc Hlen;
    cbn [length] in Hlen; cbn [ServerJs.cpuForEach];
    destruct (last !! i) as [p|] eqn:E; try reflexivity;
    apply lookup_lt_Some in E.
  - lia.
  - apply IH. cbn [length]. lia.
Qed.

(** The older sampler fails with a TypeError exactly when the reading
    stored before has fewer cores than the current one; the dashboard's
    sampler treats such extra cores as unchanged and never fails. *)
Theorem legacy_cpuUsage_throws_iff (last cpus : list Cpu) :
  ServerJs.cpuUsage last cpus = None <-> (length last < length cpus)%nat.
Proof.
  unfold ServerJs.cpuUsage. split.
  - intros H. destruct (Nat.le_gt_cases (length cpus) (length last))
      as [Hle|Hgt]; [|exact Hgt].
    rewrite legacy_cpuForEach_covered in H by (cbn; lia).
    destruct (Dashboard.cpuForEach last 0 cpus (0, 0)). discriminate H.
  - intros Hlt. destruct cpus as [|c rest]; [cbn in Hlt; lia|].
    rewrite legacy_cpuForEach_short by (cbn [length] in *; lia).
    reflexivity.
Qed.

(** When the stored reading covers every core and ticks have elapsed,
    both samplers return the same percentage and store the same
    reading. *)
Theorem cpuUsage_variants_agree (last cpus : list Cpu) :
  (length cpus <= length last)%nat ->
  0 < sumTicks cpus - sumTicks (take (length cpus) last) ->
  ServerJs.cpuUsage last cpus
  = Some (ServerJs.Num (Dashboard.cpuUsage last cpus).1,
          (Dashboard.cpuUsage last cpus).2).
Proof.
  intros Hlen Hpos. unfold ServerJs.cpuUsage, Dashboard.cpuUsage.
  rewrite legacy_cpuForEach_covered by (cbn; lia).
  rewrite cpuForEach_sums. cbn [fst snd].
  rewrite Nat.sub_0_r, drop_0, !Z.add_0_l.
  rewrite (take_ge cpus) by lia.
  unfold ServerJs.roundBusy.
  destruct (Z.eqb_spec (sumTicks cpus - sumTicks (take (length cpus) last)) 0)
    as [E0|_]; [lia|].
  destruct (Z.ltb_spec 0 (sumTicks cpus - sumTicks (take (length cpus) last)))
    as [_|Hn]; [reflexivity | lia].
Qed.

Lemma cpuUsage_variants_agree_witness :
  let last := [mkCpu (mkTimes 1000 0 0 9000 0);
               mkCpu (mkTimes 10 0 0 10 0)] in
  let cpus := [mkCpu (mkTimes 1500 0 0 9500 0)] in
  ((length cpus <= length last)%nat /\
   0 < sumTicks cpus - sumTicks (take (length cpus) last)) /\
  ServerJs.cpuUsage last cpus = Some (ServerJs.Num 50, cpus).
Proof.
  split; [split; [cbn; lia | reflexivity]|].
  exact (cpuUsage_variants_agree
           [mkCpu (mkTimes 1000 0 0 9000 0); mkCpu (mkTimes 10 0 0 10 0)]
           [mkCpu (mkTimes 1500 0 0 9500 0)]
           ltac:(cbn; lia) eq_refl).
Defined.

(** ** More on the sliding windows *)

(** Pruning lazily loses nothing: once the clock has moved on, pruning an
    already pruned window gives what pruning the full window gives, and
    pruning twice at the same time changes nothing more. *)
Theorem prune_later_absorbs (w now1 now2 : Z) (arr : list Z) :
  now1 <= now2 ->
  prune w now2 (prune w now1 arr) = prune w now2 arr /\
  prune w now1 (prune w now1 arr) = prune w now1 arr.
Proof.
  intros Hle. unfold prune. split.
  - induction arr as [|t arr IH]; [reflexivity|]. cbn.
    destruct (Z.ltb_spec (now1 - t) w) as [H1|H1]; cbn.
    + rewrite IH. reflexivity.
    + destruct (Z.ltb_spec (now2 - t) w) as [H2|H2]; [lia | exact IH].
  - induction arr as [|t arr IH]; [reflexivity|]. cbn.
    destruct (Z.ltb_spec (now1 - t) w) as [H1|H1]; cbn.
    + destruct (Z.ltb_spec (now1 - t) w); [|lia]. rewrite IH. reflexivity.
    + exact IH.
Qed.

Lemma prune_later_absorbs_witness :
  1000 <= 61500 /\
  prune 60000 61500 (prune 60000 1000 [500; 1200; 2000]) = [2000] /\
  prune 60000 61500 [500; 1200; 2000] = [2000].
Proof.
  split; [lia|].
  destruct (prune_later_absorbs 60000 1000 61500 [500; 1200; 2000]
              ltac:(lia)) as [H _].
  split; [rewrite H|]; reflexivity.
Defined.

Lemma covered_snoc (m h : list Z) (a b : Z) :
  a <= b -> covered m h -> covered (m ++ [a]) (h ++ [b]).
Proof.
  intros Hab Hc. induction Hc as [|m h x _ IH|m h x y Hxy _ IH]; cbn.
  - apply covered_pair; [exact Hab | apply covered_nil].
  - apply covered_skip, IH.
  - apply covered_pair; [exact Hxy | exact IH].
Qed.

Lemma covered_prune (now : Z) (m h : list Z) :
  covered m h -> covered (prune 60000 now m) (prune 3600000 now h).
Proof.
  unfold prune.
  induction 1 as [|m h b _ IH|m h a b Hab _ IH]; cbn.
  - apply covered_nil.
  - destruct (now - b <? 3600000); [apply covered_skip|]; exact IH.
  - destruct (Z.ltb_spec (now - a) 60000) as [Ha|Ha],
             (Z.ltb_spec (now - b) 3600000) as [Hb|Hb]; try lia.
    + apply covered_pair; assumption.
    + apply covered_skip, IH.
    + exact IH.
Qed.

Lemma covered_length (m h : list Z) :
  covered m h -> (length m <= length h)%nat.
Proof. induction 1; cbn; lia. Qed.

Lemma step_covered (s : Server) (ev : Event) :
  pushesInOrder ev ->
  covered (lastMinuteRequests (metrics s)) (lastHourRequests (metrics s)) ->
  covered (lastMinuteRequests (metrics (step s ev)))
          (lastHourRequests (metrics (step s ev))).
Proof.
  intros Hev Hc.
  destruct ev as [r | i e len | i | n]; cbn [step pushesInOrder] in *;
    [| | | exact Hc].
  - unfold handler. repeat case_bool_decide; try congruence;
      unfold sendData; snap_split; cbn -[prune];
      try apply covered_prune; apply covered_snoc; assumption.
  - case_bool_decide; [|exact Hc].
    unfold sendData. snap_split. cbn -[prune]. apply covered_prune, Hc.
  - case_bool_decide; [|exact Hc]. cbn. exact Hc.
Qed.

Lemma run_covered (evs : list Event) :
  Forall pushesInOrder evs ->
  forall s : Server,
  covered (lastMinuteRequests (metrics s)) (lastHourRequests (metrics s)) ->
  covered (lastMinuteRequests (metrics (run s evs)))
          (lastHourRequests (metrics (run s evs))).
Proof.
  induction 1 as [|ev evs Hev _ IH]; intros s Hc; [exact Hc|].
  rewrite run_cons. apply IH, step_covered; assumption.
Qed.

(** As long as the clock does not run backwards between the two pushes
    of a request, the one-minute window never holds more entries than the
    one-hour window, and every snapshot has rpm <= rph. *)
Theorem rpm_at_most_rph (cpus0 : list Cpu) (evs : list Event) (e : Env) :
  Forall pushesInOrder evs ->
  let m := metrics (run (boot cpus0) evs) in
  (length (lastMinuteRequests m) <= length (lastHourRequests m))%nat /\
  Snap.rpm (getSnapshot e m).1 <= Snap.rph (getSnapshot e m).1.
Proof.
  intros Hevs m.
  assert (covered (lastMinuteRequests m) (lastHourRequests m)) as Hc.
  { subst m. apply run_covered; [exact Hevs | apply covered_nil]. }
  split.
  - apply covered_length, Hc.
  - destruct (snapshot_windows e m) as [-> ->].
    apply inj_le, covered_length, covered_prune, Hc.
Qed.

Lemma rpm_at_most_rph_witness :
  let evs := [Incoming (Sample.request "/" 1000 1010);
              Incoming (Sample.request "/health" 70000 70001);
              Incoming (Sample.request "/events" 80000 80000);
              TimerFire 0 (Sample.host 82000 32) 512] in
  let m := metrics (run (boot Sample.cores) evs) in
  Forall pushesInOrder evs /\
  Snap.rpm (getSnapshot (Sample.host 90000 40) m).1
    <= Snap.rph (getSnapshot (Sample.host 90000 40) m).1.
Proof.
  assert (Forall pushesInOrder
            [Incoming (Sample.request "/" 1000 1010);
             Incoming (Sample.request "/health" 70000 70001);
             Incoming (Sample.request "/events" 80000 80000);
             TimerFire 0 (Sample.host 82000 32) 512]) as H.
  { repeat constructor; cbn; lia. }
  split; [exact H|].
  exact (proj2 (rpm_at_most_rph Sample.cores _ (Sample.host 90000 40) H)).
Defined.

(** ** The histograms *)

Lemma bump_lookup (k k' : string) (obj : gmap string Z) :
  default 0 (bump k obj !! k')
  = default 0 (obj !! k') + (if bool_decide (k = k') then 1 else 0).
Proof.
  unfold bump. case_bool_decide as Hk.
  - subst k'. rewrite lookup_insert_eq. reflexivity.
  - rewrite lookup_insert_ne by exact Hk. lia.
Qed.

Lemma bump_dom (k : string) (obj : gmap string Z) :
  dom (bump k obj) = {[k]} ∪ dom obj.
Proof. unfold bump. apply dom_insert_L. Qed.

Lemma histogramTotal_bump (k : string) (obj : gmap string Z) :
  histogramTotal (bump k obj) = histogramTotal obj + 1.
Proof.
  unfold histogramTotal, bump.
  assert (forall (m : gmap string Z) (j1 j2 : string) (z1 z2 y : Z),
            j1 <> j2 -> m !! j1 = Some z1 -> m !! j2 = Some z2 ->
            z1 + (z2 + y) = z2 + (z1 + y)) as Hcomm by (intros; lia).
  destruct (obj !! k) as [v|] eqn:E; cbn [default].
  - rewrite <- insert_delete_eq.
    rewrite map_fold_insert_L;
      [|apply Hcomm | apply lookup_delete_eq].
    rewrite (map_fold_delete_L _ 0 k v obj (Hcomm obj) E). unfold id. lia.
  - rewrite map_fold_insert_L; [lia | apply Hcomm | exact E].
Qed.

(** Splits a goal about one step of the server like [step_cases], but
    keeps [bump] folded and drops the impossible combinations of routes. *)
Ltac route_cases ev :=
  destruct ev as [r | i e len | i | n]; cbn [step];
  [ unfold handler; repeat case_bool_decide; try congruence
  | case_bool_decide
  | case_bool_decide
  | idtac ];
  unfold sendData; snap_split; cbn -[bump].

Lemma run_nextStream (evs : list Event) :
  forall s : Server,
  nextStream (run s evs) = (nextStream s + streams evs)%nat.
Proof.
  induction evs as [|ev evs IH]; intros s.
  - cbn. lia.
  - rewrite run_cons, IH, streams_cons.
    destruct (step_connections s ev) as [_ ->].
    destruct ev as [r| | |]; cbn; try lia.
    unfold streams, streaming. cbn. case_bool_decide; cbn; lia.
Qed.

Lemma known_code_dom (k : string) (d : gset string) :
  k = "200" \/ k = "404" ->
  d ⊆ {["200"; "404"]} -> {[k]} ∪ d ⊆ {["200"; "404"]}.
Proof.
  intros Hk Hd x Hx. apply elem_of_union in Hx as [Hx|Hx]; [|exact (Hd x Hx)].
  apply elem_of_singleton in Hx. subst x. apply elem_of_union.
  destruct Hk as [-> | ->]; [left | right]; apply elem_of_singleton;
    reflexivity.
Qed.

Lemma step_statusAccounted (s : Server) (ev : Event) :
  statusAccounted s -> statusAccounted (step s ev).
Proof.
  unfold statusAccounted. intros (H404 & Hsum & Hdom).
  route_cases ev; unfold countStatus; cbn -[bump];
    rewrite ?bump_lookup, ?bump_dom; cbn [bool_decide];
    repeat case_bool_decide; try congruence;
    (split; [lia | split; [lia|]]);
    first [exact Hdom | apply known_code_dom; [auto | exact Hdom]].
Qed.

(** In every reachable state the status histogram has no other keys than
    "200" and "404", its "404" count is errorCount, and its two counts
    together with the number of event streams opened add up to
    totalRequests: every request is counted under a status except the
    [/events] requests, which are counted under none. *)
Theorem status_histogram_accounts (cpus0 : list Cpu) (evs : list Event) :
  let s := run (boot cpus0) evs in
  let codes := statusCodeCounts (metrics s) in
  default 0 (codes !! "404") = errorCount (metrics s) /\
  default 0 (codes !! "200") + default 0 (codes !! "404")
    + Z.of_nat (streams evs) = requestCount (metrics s) /\
  dom codes ⊆ {["200"; "404"]}.
Proof.
  intros s codes. subst codes.
  assert (statusAccounted s) as (H404 & Hsum & Hdom).
  { subst s. apply (run_invariant statusAccounted).
    - intros s ev. apply step_statusAccounted.
    - unfold statusAccounted. cbn. split; [reflexivity|].
      split; [reflexivity|]. rewrite dom_empty_L. apply empty_subseteq. }
  subst s. rewrite run_nextStream in Hsum. cbn [boot nextStream] in Hsum.
  rewrite Nat.add_0_l in Hsum. auto.
Qed.

Lemma step_endpoints (s : Server) (ev : Event) :
  requestsPerEndpoint (metrics (step s ev)) =
  match ev with
  | Incoming r => bump (url r) (requestsPerEndpoint (metrics s))
  | _ => requestsPerEndpoint (metrics s)
  end.
Proof. route_cases ev; reflexivity. Qed.

Lemma hits_cons (u : string) (ev : Event) (evs : list Event) :
  hits u (ev :: evs) = (hits u [ev] + hits u evs)%nat.
Proof.
  unfold hits. rewrite requests_cons, List.filter_app, length_app.
  reflexivity.
Qed.

Lemma run_endpoints (u : string) (evs : list Event) :
  forall s : Server,
  default 0 (requestsPerEndpoint (metrics (run s evs)) !! u)
    = default 0 (requestsPerEndpoint (metrics s) !! u) + Z.of_nat (hits u evs)
  /\
  dom (requestsPerEndpoint (metrics (run s evs)))
    = dom (requestsPerEndpoint (metrics s)) ∪ list_to_set (url <$> requests evs)
  /\
  histogramTotal (requestsPerEndpoint (metrics (run s evs)))
    = histogramTotal (requestsPerEndpoint (metrics s))
      + Z.of_nat (length (requests evs)).
Proof.
  induction evs as [|ev evs IH]; intros s.
  - cbn. split; [lia|]. split; [|lia].
    rewrite union_empty_r_L. reflexivity.
  - rewrite run_cons. destruct (IH (step s ev)) as (Hu & Hd & Ht).
    rewrite Hu, Hd, Ht, step_endpoints, hits_cons, requests_cons.
    destruct ev as [r| | |]; cbn [app requests omap list_omap hits].
    + rewrite bump_lookup, bump_dom, histogramTotal_bump.
      unfold hits. cbn [requests omap list_omap List.filter fmap list_fmap
                        list_to_set length app].
      split; [|split].
      * case_bool_decide; cbn [length]; lia.
      * rewrite (union_comm_L {[url r]}), <- union_assoc_L. reflexivity.
      * cbn [length]. lia.
    + cbn. split; [lia|]. split; [reflexivity | lia].
    + cbn. split; [lia|]. split; [reflexivity | lia].
    + cbn. split; [lia|]. split; [reflexivity | lia].
Qed.

(** The endpoint histogram counts, for every URL, how many requests asked
    for it, whatever the route; a URL is a key exactly when it was
    requested; and the counts add up to totalRequests. *)
Theorem endpoint_histogram_counts
    (cpus0 : list Cpu) (evs : list Event) (u : string) :
  let m := metrics (run (boot cpus0) evs) in
  default 0 (requestsPerEndpoint m !! u) = Z.of_nat (hits u evs) /\
  (u ∈ dom (requestsPerEndpoint m) <-> In u (url <$> requests evs)) /\
  histogramTotal (requestsPerEndpoint m) = requestCount m.
Proof.
  intros m. subst m.
  destruct (run_endpoints u evs (boot cpus0)) as (Hu & Hd & Ht).
  destruct (run_totals evs (boot cpus0)) as [Hc _].
  rewrite Hu, Hd, Ht, Hc. cbn [boot metrics initial requestsPerEndpoint
    requestCount]. rewrite lookup_empty, dom_empty_L, union_empty_l_L.
  split; [cbn; lia|]. split.
  - rewrite elem_of_list_to_set. apply list_elem_of_In.
  - reflexivity.
Qed.

(** ** Connections *)

Lemma step_timers (s : Server) (ev : Event) :
  timers (step s ev) =
  match ev with
  | Incoming r =>
      if streaming r then {[nextStream s]} ∪ timers s else timers s
  | TimerFire _ _ _ => timers s
  | Close i =>
      if bool_decide (i < nextStream s)%nat then timers s ∖ {[i]}
      else timers s
  | BodyEnd _ => timers s
  end.
Proof.
  destruct ev as [r | i e len | i | n]; cbn [step]; [| | | reflexivity].
  - unfold handler, streaming. repeat case_bool_decide; try congruence;
      unfold sendData; snap_split; reflexivity.
  - case_bool_decide; [|reflexivity]. unfold sendData. snap_split.
    reflexivity.
  - case_bool_decide; reflexivity.
Qed.

Lemma size_armed (n : nat) (t : gset nat) :
  n ∉ t -> size ({[n]} ∪ t) = S (size t).
Proof.
  intros Hn. rewrite size_union, size_singleton; [reflexivity|].
  intros x Hx Hx'. apply elem_of_singleton in Hx. subst x. exact (Hn Hx').
Qed.

Lemma size_cleared (i : nat) (t : gset nat) :
  i ∈ t -> size t = S (size (t ∖ {[i]})).
Proof.
  intros Hi. rewrite (union_difference_singleton_L i t Hi) at 1.
  apply size_armed, not_in_cleared.
Qed.

Lemma step_openStreams (closed : gset nat) (s : Server) (ev : Event) :
  openStreams closed s ->
  match ev with
  | Close i => i ∉ closed
  | _ => True
  end ->
  openStreams
    (match ev with
     | Close i => if bool_decide (i < nextStream s)%nat
                  then {[i]} ∪ closed else closed
     | _ => closed
     end) (step s ev).
Proof.
  unfold openStreams. intros (Hmem & Hcl & Hac) Hev.
  destruct (step_connections s ev) as [Hac' Hnext'].
  rewrite Hac', Hnext', step_timers.
  destruct ev as [r | i e len | i | n]; cbn [connectionChange opens];
    [| | | split; [exact Hmem | split; [exact Hcl | lia]]].
  - destruct (streaming r).
    + assert (nextStream s ∉ timers s) as Hfresh.
      { intros Hin. apply Hmem in Hin as [Hlt _]. lia. }
      split; [|split].
      * intros i. rewrite elem_of_union, elem_of_singleton, Hmem.
        split.
        -- intros [->|[Hlt Hnc]]; [|split; [lia | exact Hnc]].
           split; [lia|]. intros Hc. apply Hcl in Hc. lia.
        -- intros [Hlt Hnc].
           destruct (decide (i = nextStream s)) as [->|Hne];
             [left; reflexivity | right; split; [lia | exact Hnc]].
      * intros i Hi. apply Hcl in Hi. lia.
      * rewrite size_armed by exact Hfresh. lia.
    + split; [exact Hmem | split; [exact Hcl | lia]].
  - split; [exact Hmem | split; [exact Hcl | lia]].
  - case_bool_decide as Hlt; [|split; [exact Hmem | split; [exact Hcl | lia]]].
    assert (i ∈ timers s) as Hin by (apply Hmem; split; assumption).
    split; [|split].
    + intros j. rewrite elem_of_difference, elem_of_singleton, Hmem,
        elem_of_union, elem_of_singleton.
      split.
      * intros [[Hj Hnc] Hne]. split; [exact Hj|].
        intros [->|Hc]; [exact (Hne eq_refl) | exact (Hnc Hc)].
      * intros [Hj Hnc]. split; [split; [exact Hj|] |].
        -- intros Hc. apply Hnc. right. exact Hc.
        -- intros ->. apply Hnc. left. reflexivity.
    + intros j Hj. apply elem_of_union in Hj as [Hj|Hj].
      * apply elem_of_singleton in Hj. subst j. exact Hlt.
      * apply Hcl, Hj.
    + rewrite (size_cleared i (timers s) Hin) in Hac. lia.
Qed.

Lemma run_openStreams (evs : list Event) :
  NoDup (closes evs) ->
  forall (closed : gset nat) (s : Server),
  openStreams closed s ->
  (forall i : nat, i ∈ closes evs -> i ∉ closed) ->
  exists closed' : gset nat, openStreams closed' (run s evs).
Proof.
  induction evs as [|ev evs IH]; intros Hnd closed s Hs Hfresh.
  - exists closed. exact Hs.
  - rewrite run_cons. destruct ev as [r | i e len | i | n];
      [| | | apply (IH Hnd closed); [|exact Hfresh];
             exact (step_openStreams closed s (BodyEnd n) Hs I)].
    + apply (IH Hnd closed); [|exact Hfresh].
      exact (step_openStreams closed s (Incoming r) Hs I).
    + apply (IH Hnd closed); [|exact Hfresh].
      exact (step_openStreams closed s (TimerFire i e len) Hs I).
    + cbn [closes omap list_omap] in Hnd, Hfresh.
      apply NoDup_cons in Hnd as [Hni Hnd].
      assert (i ∉ closed) as Hi by (apply Hfresh, list_elem_of_here).
      pose proof (step_openStreams closed s (Close i) Hs Hi) as Hs'.
      cbn beta iota in Hs'.
      eapply (IH Hnd); [exact Hs'|].
      intros j Hj. case_bool_decide.
      * intros Hc. apply elem_of_union in Hc as [Hc|Hc].
        -- apply elem_of_singleton in Hc. subst j. exact (Hni Hj).
        -- revert Hc. apply Hfresh. apply list_elem_of_further, Hj.
      * apply Hfresh. apply list_elem_of_further, Hj.
Qed.

(** When no stream's [close] event is delivered twice, activeConnections
    is in every reachable state the number of armed push timers, that is,
    of open event streams; in particular it is never negative. *)
Theorem activeConnections_counts_open_streams
    (cpus0 : list Cpu) (evs : list Event) :
  NoDup (closes evs) ->
  let s := run (boot cpus0) evs in
  activeConnections (metrics s) = Z.of_nat (size (timers s)) /\
  0 <= activeConnections (metrics s) /\
  (forall i : nat, i ∈ timers s -> (i < streams evs)%nat).
Proof.
  intros Hnd s.
  destruct (run_openStreams evs Hnd ∅ (boot cpus0)) as (closed & Hm & _ & Hac).
  - unfold openStreams. cbn. split; [|split; [|reflexivity]].
    + intros i. rewrite elem_of_empty. split; [intros [] | lia].
    + intros i Hi. apply elem_of_empty in Hi. destruct Hi.
  - intros i _. apply not_elem_of_empty.
  - fold s in Hm, Hac. split; [exact Hac|]. split; [lia|].
    intros i Hi. apply Hm in Hi as [Hlt _].
    subst s. rewrite run_nextStream in Hlt. exact Hlt.
Qed.

Lemma activeConnections_counts_open_streams_witness :
  let evs := [Incoming (Sample.request "/events" 1000 1000);
              Incoming (Sample.request "/events" 1500 1500);
              TimerFire 0 (Sample.host 3000 32) 512;
              Close 0;
              Incoming (Sample.request "/" 3500 3510)] in
  let s := run (boot Sample.cores) evs in
  NoDup (closes evs) /\
  activeConnections (metrics s) = Z.of_nat (size (timers s)) /\
  activeConnections (metrics s) = 1.
Proof.
  assert (NoDup (closes
            [Incoming (Sample.request "/events" 1000 1000);
             Incoming (Sample.request "/events" 1500 1500);
             TimerFire 0 (Sample.host 3000 32) 512;
             Close 0;
             Incoming (Sample.request "/" 3500 3510)])) as H.
  { cbn. apply NoDup_cons. split; [apply not_elem_of_nil | apply NoDup_nil_2]. }
  split; [exact H|].
  split; [|vm_compute; reflexivity].
  exact (proj1 (activeConnections_counts_open_streams Sample.cores _ H)).
Defined.

(** ** Response time extremes *)

Lemma step_extrema (s : Server) (ev : Event) :
  minResponseTime (metrics (step s ev))
    = fold_left Math_min (elapsedTimes [ev]) (minResponseTime (metrics s)) /\
  maxResponseTime (metrics (step s ev))
    = fold_left Z.max (elapsedTimes [ev]) (maxResponseTime (metrics s)).
Proof.
  route_cases ev; unfold elapsedTimes, timed, streaming, healthProbe, elapsed;
    cbn; repeat case_bool_decide; try congruence; cbn; split; reflexivity.
Qed.

Lemma run_extrema (evs : list Event) :
  forall s : Server,
  minResponseTime (metrics (run s evs))
    = fold_left Math_min (elapsedTimes evs) (minResponseTime (metrics s)) /\
  maxResponseTime (metrics (run s evs))
    = fold_left Z.max (elapsedTimes evs) (maxResponseTime (metrics s)).
Proof.
  induction evs as [|ev evs IH]; intros s.
  - split; reflexivity.
  - rewrite run_cons, elapsedTimes_cons, !fold_left_app.
    destruct (IH (step s ev)) as [-> ->].
    destruct (step_extrema s ev) as [-> ->]. split; reflexivity.
Qed.

Lemma fold_min_spec (l : list Z) :
  forall lo : Z,
  exists lo' : Z,
    fold_left Math_min l (Fin lo) = Fin lo' /\
    lo' <= lo /\ Forall (fun e => lo' <= e) l /\ (lo' = lo \/ In lo' l).
Proof.
  induction l as [|e l IH]; intros lo.
  - exists lo. cbn. repeat split; [lia | constructor | left; reflexivity].
  - cbn [fold_left Math_min].
    destruct (IH (Z.min lo e)) as (lo' & E & Hle & Hall & Hin).
    exists lo'. split; [exact E|]. split; [lia|]. split.
    + constructor; [lia | exact Hall].
    + destruct Hin as [->|Hin]; [|right; right; exact Hin].
      destruct (Z.min_spec lo e) as [[_ ->]|[_ ->]];
        [left; reflexivity | right; left; reflexivity].
Qed.

Lemma fold_max_spec (l : list Z) :
  forall hi : Z,
  hi <= fold_left Z.max l hi /\
  Forall (fun e => e <= fold_left Z.max l hi) l /\
  (fold_left Z.max l hi = hi \/ In (fold_left Z.max l hi) l).
Proof.
  induction l as [|e l IH]; intros hi.
  - cbn. repeat split; [lia | constructor | left; reflexivity].
  - cbn [fold_left]. destruct (IH (Z.max hi e)) as (Hle & Hall & Hin).
    split; [lia|]. split.
    + constructor; [lia | exact Hall].
    + destruct Hin as [E|Hin]; [|right; right; exact Hin].
      rewrite E. destruct (Z.max_spec hi e) as [[_ ->]|[_ ->]];
        [right; left; reflexivity | left; reflexivity].
Qed.

(** The stored minimum is the least elapsed time the run recorded
    (+Infinity when it recorded none), and the stored maximum is the
    greatest one or the initial 0, whichever is larger: no recorded time
    lies outside the two, and each is one of the recorded times or still
    its initial value. *)
Theorem extremes_are_recorded_times (cpus0 : list Cpu) (evs : list Event) :
  let m := metrics (run (boot cpus0) evs) in
  let recorded := elapsedTimes evs in
  match minResponseTime m with
  | PInf => recorded = []
  | Fin lo => In lo recorded /\ Forall (fun e => lo <= e) recorded
  end /\
  Forall (fun e => e <= maxResponseTime m) recorded /\
  0 <= maxResponseTime m /\
  (maxResponseTime m = 0 \/ In (maxResponseTime m) recorded).
Proof.
  intros m recorded. subst m recorded.
  destruct (run_extrema evs (boot cpus0)) as [-> ->].
  cbn [boot metrics initial minResponseTime maxResponseTime].
  destruct (fold_max_spec (elapsedTimes evs) 0) as (H0 & Hall & Hin).
  split; [|auto].
  destruct (elapsedTimes evs) as [|e l]; [reflexivity|].
  cbn [fold_left Math_min].
  destruct (fold_min_spec l e) as (lo & -> & Hle & Hl & Hlo).
  split.
  - destruct Hlo as [->|Hlo]; [left; reflexivity | right; exact Hlo].
  - constructor; assumption.
Qed.

(** ** Rates and memory share *)

(** Away from a rounding tie, the printed success and error rates add up
    to exactly 100.0. *)
Theorem rates_add_up (e : Env) (m : Metrics) :
  0 < requestCount m ->
  0 <= errorCount m <= requestCount m ->
  (2000 * errorCount m + requestCount m) mod (2 * requestCount m) <> 0 ->
  tenths (Snap.successRate (getSnapshot e m).1)
  + tenths (Snap.errorRate (getSnapshot e m).1) = 1000.
Proof.
  intros Hn He Htie.
  destruct (snapshot_rates e m) as (-> & -> & _).
  rewrite !pct_closed by lia. cbn [tenths].
  set (n := requestCount m) in *. set (k := errorCount m) in *.
  pose proof (Z.div_mod (2000 * k + n) (2 * n) ltac:(lia)) as Hdm.
  pose proof (Z.mod_pos_bound (2000 * k + n) (2 * n) ltac:(lia)) as Hm.
  set (q := (2000 * k + n) / (2 * n)) in *.
  set (r := (2000 * k + n) mod (2 * n)) in *.
  assert ((2000 * (n - k) + n) / (2 * n) = 1000 - q) as ->; [|lia].
  symmetry. apply (Z.div_unique _ _ _ (2 * n - r)); lia.
Qed.

Lemma rates_add_up_witness :
  let m := metrics (run (boot Sample.cores)
             [Incoming (Sample.request "/" 1000 1010);
              Incoming (Sample.request "/dashboard" 2000 2020);
              Incoming (Sample.request "/nowhere" 3000 3030)]) in
  (0 < requestCount m /\ 0 <= errorCount m <= requestCount m /\
   (2000 * errorCount m + requestCount m) mod (2 * requestCount m) <> 0) /\
  tenths (Snap.successRate (getSnapshot (Sample.host 4000 30) m).1) = 667 /\
  tenths (Snap.successRate (getSnapshot (Sample.host 4000 30) m).1)
  + tenths (Snap.errorRate (getSnapshot (Sample.host 4000 30) m).1) = 1000.
Proof.
  split; [vm_compute; repeat split; discriminate|].
  split; [vm_compute; reflexivity|].
  apply rates_add_up.
  - vm_compute. reflexivity.
  - vm_compute. split; discriminate.
  - vm_compute. discriminate.
Defined.



(** ** Snapshots *)

Lemma prune_idem (w now : Z) (arr : list Z) :
  prune w now (prune w now arr) = prune w now arr.
Proof.
  unfold prune. induction arr as [|t arr IH]; [reflexivity|]. cbn.
  destruct (now - t <? w) eqn:E; cbn; [rewrite E, IH; reflexivity | exact IH].
Qed.

Lemma cpuUsage_same (c : list Cpu) : Dashboard.cpuUsage c c = (0, c).
Proof. unfold Dashboard.cpuUsage. rewrite cpuForEach_same. reflexivity. Qed.

(** [getSnapshot] changes no counter and no histogram: it only prunes the
    two windows and stores the CPU reading.  Asked again with the same
    answers of the host, it leaves the state as it is and returns the same
    snapshot except for the CPU figure, which is then 0, and the health
    derived from it. *)
Theorem getSnapshot_repeatable (e : Env) (m : Metrics) :
  let first := getSnapshot e m in
  let second := getSnapshot e first.2 in
  (requestCount first.2, totalResponseTime first.2, errorCount first.2,
   minResponseTime first.2, maxResponseTime first.2,
   activeConnections first.2, totalBytesReceived first.2,
   totalBytesSent first.2, statusCodeCounts first.2,
   requestsPerEndpoint first.2, lastRequestTime first.2)
  = (requestCount m, totalResponseTime m, errorCount m,
     minResponseTime m, maxResponseTime m,
     activeConnections m, totalBytesReceived m,
     totalBytesSent m, statusCodeCounts m,
     requestsPerEndpoint m, lastRequestTime m) /\
  second.2 = first.2 /\
  second.1 =
    withCpu 0 (getHealthStatus 0 (Snap.sysMemPercent first.1)
                 (inject_Z (Snap.diskPercent first.1))) first.1.
Proof.
  intros first second. subst second first.
  rewrite (getSnapshot_snd e m). split; [reflexivity|].
  unfold getSnapshot.
  destruct (Dashboard.cpuUsage (lastCpu (cleanupOldRequests (cleanupNow e) m))
              (cpus e)) as [c1 l1].
  unfold cleanupOldRequests, setWindows, setLastCpu.
  cbn [lastCpu lastMinuteRequests lastHourRequests requestCount
       totalResponseTime lastRequestTime minResponseTime maxResponseTime
       errorCount activeConnections totalBytesReceived totalBytesSent
       statusCodeCounts requestsPerEndpoint].
  rewrite !prune_idem, cpuUsage_same. split; reflexivity.
Qed.

Lemma step_lastRequestTime (s : Server) (ev : Event) :
  lastRequestTime (metrics (step s ev)) =
  match ev with
  | Incoming r => Some (isoNow r)
  | _ => lastRequestTime (metrics s)
  end.
Proof. route_cases ev; reflexivity. Qed.

(** lastRequest is the time of the most recent request of any route, and
    is null only while there has been none. *)
Theorem lastRequest_is_latest (cpus0 : list Cpu) (evs : list Event) :
  lastRequestTime (metrics (run (boot cpus0) evs))
  = last (isoNow <$> requests evs).
Proof.
  assert (forall s : Server,
            lastRequestTime (metrics (run s evs))
            = match last (isoNow <$> requests evs) with
              | Some t => Some t
              | None => lastRequestTime (metrics s)
              end) as H.
  { induction evs as [|ev evs IH]; intros s; [reflexivity|].
    rewrite run_cons, IH, step_lastRequestTime, requests_cons, fmap_app.
    destruct ev as [r| | |]; try reflexivity.
    change (requests [Incoming r]) with [r].
    change (isoNow <$> [r]) with [isoNow r]. cbn [app].
    rewrite last_cons.
    destruct (last (isoNow <$> requests evs)); reflexivity. }
  rewrite H. destruct (last (isoNow <$> requests evs)); reflexivity.
Qed.

Lemma step_writtenTo (i : nat) (s : Server) (ev : Event) :
  length (writtenTo i (step s ev)) =
  (length (writtenTo i s) +
   match ev with
   | Incoming r =>
       if streaming r && bool_decide (nextStream s = i) then 1 else 0
   | TimerFire j _ _ =>
       if bool_decide (j ∈ timers s) && bool_decide (j = i) then 1 else 0
   | _ => 0
   end)%nat.
Proof.
  destruct ev as [r | j e len | j | n]; cbn [step].
  - unfold handler, streaming. repeat case_bool_decide; try congruence;
      unfold sendData; snap_split; cbn [orb andb];
      rewrite ?writtenTo_snoc, ?writtenTo_same, ?length_app;
      repeat case_bool_decide; try congruence; cbn [length]; lia.
  - case_bool_decide; cbn [andb]; [|lia].
    unfold sendData. snap_split. rewrite writtenTo_snoc, length_app.
    case_bool_decide; cbn [length]; lia.
  - case_bool_decide; [rewrite writtenTo_same|]; lia.
  - rewrite writtenTo_same. lia.
Qed.

Lemma step_follows (i : nat) (s : Server) (a : Subscriber) (ev : Event) :
  follows i s a -> follows i (step s ev) (subscriberStep i a ev).
Proof.
  unfold follows. intros (Hn & Hw & Ht & Hc).
  rewrite step_writtenTo, step_timers.
  destruct (step_connections s ev) as [_ ->].
  destruct ev as [r | j e len | j | n]; cbn [subscriberStep opens].
  - destruct (streaming r); cbn [andb];
      [|split; [exact Hn | split; [lia | split; [exact Ht | exact Hc]]]].
    rewrite Hn. case_bool_decide as Hi; cbn [streamsBefore phase pushes].
    + split; [reflexivity|]. split; [lia|]. split.
      * split; [reflexivity|]. intros _. apply elem_of_union. left.
        apply elem_of_singleton. congruence.
      * split; [discriminate | lia].
    + split; [reflexivity|]. split; [lia|]. split.
      * rewrite elem_of_union, elem_of_singleton, Ht. split.
        -- intros [E|E]; [congruence | exact E].
        -- intros E. right. exact E.
      * rewrite Hc. lia.
  - destruct (phase a) eqn:Ep.
    + (* CONNECTING *)
      assert (i ∉ timers s) as Hout by (rewrite Ht; discriminate).
      repeat case_bool_decide; subst; try contradiction; cbn [andb];
        rewrite ?Ep;
        (split; [exact Hn | split; [lia | split; [exact Ht | exact Hc]]]).
    + (* STREAMING *)
      assert (i ∈ timers s) as Hin by (apply Ht; reflexivity).
      repeat case_bool_decide; subst; try contradiction; cbn [andb];
        cbn [streamsBefore phase pushes]; rewrite ?Ep;
        (split; [exact Hn | split; [lia | split; [exact Ht | exact Hc]]]).
    + (* CLOSED *)
      assert (i ∉ timers s) as Hout by (rewrite Ht; discriminate).
      repeat case_bool_decide; subst; try contradiction; cbn [andb];
        rewrite ?Ep;
        (split; [exact Hn | split; [lia | split; [exact Ht | exact Hc]]]).
  - assert (forall t : gset nat, i ∈ t ∖ {[j]} <-> i ∈ t /\ i <> j) as Hdiff.
    { intros t. rewrite elem_of_difference, elem_of_singleton. reflexivity. }
    destruct (phase a) eqn:Ep; repeat case_bool_decide;
      cbn [streamsBefore phase pushes]; rewrite ?Ep, ?Hdiff, ?Ht;
      (split; [exact Hn | split; [lia | split]]); try exact Hc;
      try (split; [discriminate | intros Hle; apply Hc in Hle; congruence]).
    all: try (split; [intros [E _]; exact E | discriminate]).
    all: try (split; [intros [_ E]; congruence | discriminate]).
    all: try (split; [intros [E _]; exact E
                     | intros E; split; [exact E | congruence]]).
    all: try reflexivity.
    exfalso. assert (STREAMING = CONNECTING) as Hx by (apply Hc; lia).
    discriminate Hx.
  - split; [exact Hn | split; [lia | split; [exact Ht | exact Hc]]].
Qed.

Lemma run_follows (i : nat) (evs : list Event) :
  forall (s : Server) (a : Subscriber),
  follows i s a ->
  follows i (run s evs) (fold_left (subscriberStep i) evs a).
Proof.
  induction evs as [|ev evs IH]; intros s a H; [exact H|].
  rewrite run_cons. cbn [fold_left]. apply IH, step_follows, H.
Qed.

(** Each event stream of the server lives the life of a subscriber:
    CONNECTING until its request arrives, STREAMING while its timer is
    armed, CLOSED afterwards and never STREAMING again.  The snapshots
    written to it are exactly one at the opening and one for each of its
    ticks while STREAMING, whatever other requests, streams, ticks and
    closes happen in between. *)
Theorem stream_follows_subscriber
    (cpus0 : list Cpu) (evs : list Event) (i : nat) :
  let s := run (boot cpus0) evs in
  let a := subscriber i evs in
  length (writtenTo i s) = pushes a /\
  (i ∈ timers s <-> phase a = STREAMING) /\
  (phase a = CONNECTING <-> (nextStream s <= i)%nat) /\
  streamsBefore a = streams evs.
Proof.
  intros s a. subst s a.
  destruct (run_follows i evs (boot cpus0) (mkSubscriber 0 CONNECTING 0))
    as (Hn & Hw & Ht & Hc).
  - unfold follows. cbn. split; [reflexivity|]. split; [reflexivity|].
    split.
    + split; [intros H; apply elem_of_empty in H; destruct H | discriminate].
    + split; [lia | reflexivity].
  - fold (subscriber i evs) in *.
    split; [exact Hw|]. split; [exact Ht|]. split; [exact Hc|].
    rewrite Hn, run_nextStream. reflexivity.
Qed.

(** The CPU reading is shared by all streams: right after the tick of one
    stream, a snapshot built for anyone else while the tick counters have
    not moved reports a CPU usage of 0. *)
Theorem cpu_reading_is_shared
    (s : Server) (i : nat) (e1 e2 : Env) (len : Z) :
  i ∈ timers s ->
  cpus e2 = cpus e1 ->
  Snap.cpu (getSnapshot e2 (metrics (step s (TimerFire i e1 len)))).1 = 0.
Proof.
  intros Hi Hsame. cbn [step]. case_bool_decide; [|contradiction].
  unfold sendData. pose proof (getSnapshot_snd e1 (metrics s)) as H1.
  destruct (getSnapshot e1 (metrics s)) as [snap1 m1]. cbn [snd] in H1.
  subst m1. cbn [metrics]. unfold getSnapshot.
  cbn [addBytesSent setBytes setLastCpu cleanupOldRequests setWindows lastCpu].
  rewrite Hsame, cpuUsage_same. reflexivity.
Qed.

Lemma cpu_reading_is_shared_witness :
  let s := run (boot Sample.cores)
             [Incoming (Sample.request "/events" 1000 1000);
              Incoming (Sample.request "/events" 1500 1500)] in
  (0%nat ∈ timers s /\
   cpus (Sample.host 3001 32) = cpus (Sample.host 3000 32)) /\
  Snap.cpu (getSnapshot (Sample.host 3001 32)
              (metrics (step s (TimerFire 0 (Sample.host 3000 32) 512)))).1
  = 0.
Proof.
  assert (0%nat ∈ timers (run (boot Sample.cores)
             [Incoming (Sample.request "/events" 1000 1000);
              Incoming (Sample.request "/events" 1500 1500)])) as Hin.
  { vm_compute. reflexivity. }
  split; [split; [exact Hin | reflexivity]|].
  exact (cpu_reading_is_shared _ 0 (Sample.host 3000 32)
           (Sample.host 3001 32) 512 Hin eq_refl).
Defined.

(** ** The older server *)

Lemma legacy_getSnapshot_counters (h : ServerJs.Host) (st st' : ServerJs.State)
    (snap : ServerJs.Snapshot) :
  ServerJs.getSnapshot h st = Some (snap, st') ->
  ServerJs.requestCount st' = ServerJs.requestCount st /\
  ServerJs.totalResponseTime st' = ServerJs.totalResponseTime st.
Proof.
  unfold ServerJs.getSnapshot.
  destruct (ServerJs.cpuUsage _ _) as [[c l]|]; [|discriminate].
  intros H. injection H as _ <-. split; reflexivity.
Qed.

Lemma legacy_run_totals (evs : list ServerJs.Event) :
  forall s s' : ServerJs.Server,
  ServerJs.run s evs = Some s' ->
  ServerJs.requestCount (ServerJs.state s')
    = ServerJs.requestCount (ServerJs.state s)
      + Z.of_nat (length (ServerJs.allRequests evs)) /\
  ServerJs.totalResponseTime (ServerJs.state s')
    = ServerJs.totalResponseTime (ServerJs.state s)
      + sumZ ((fun r => ServerJs.endNow r - ServerJs.start r)
              <$> ServerJs.timedRequests evs).
Proof.
  induction evs as [|ev evs IH]; intros s s' Hrun.
  - injection Hrun as <-. cbn. split; lia.
  - cbn [ServerJs.run] in Hrun.
    destruct (ServerJs.step s ev) as [s1|] eqn:Estep; [|discriminate].
    destruct (IH s1 s' Hrun) as [Hc Ht]. rewrite Hc, Ht. clear IH Hrun Hc Ht.
    destruct ev as [r | i h | i]; cbn [ServerJs.step] in Estep.
    + injection Estep as <-. unfold ServerJs.handler.
      cbn [ServerJs.allRequests ServerJs.timedRequests omap list_omap].
      repeat case_bool_decide; try congruence; cbn;
        fold (ServerJs.allRequests evs); fold (ServerJs.timedRequests evs);
        unfold sumZ; split; lia.
    + cbn [ServerJs.allRequests ServerJs.timedRequests omap list_omap].
      case_bool_decide.
      * destruct (ServerJs.getSnapshot h (ServerJs.state s))
          as [[snap st]|] eqn:Esnap; [|discriminate].
        injection Estep as <-. cbn [ServerJs.state].
        destruct (legacy_getSnapshot_counters _ _ _ _ Esnap) as [-> ->].
        split; reflexivity.
      * injection Estep as <-. split; reflexivity.
    + cbn [ServerJs.allRequests ServerJs.timedRequests omap list_omap].
      case_bool_decide; injection Estep as <-; split; reflexivity.
Qed.

(** In the older server only the requests answered 404 add to
    totalResponseTime, while every request is counted: as long as the
    process is alive, avgResponseMs is the time spent on not-found
    requests divided by the number of all requests, rounded, and is 0 for
    a server that only ever served its page and its event streams. *)
Theorem legacy_average_counts_only_not_found
    (cpus0 : list Cpu) (evs : list ServerJs.Event) (s : ServerJs.Server)
    (h : ServerJs.Host) (snap : ServerJs.Snapshot) (st : ServerJs.State) :
  ServerJs.run (ServerJs.boot cpus0) evs = Some s ->
  ServerJs.getSnapshot h (ServerJs.state s) = Some (snap, st) ->
  let n := Z.of_nat (length (ServerJs.allRequests evs)) in
  let spent := sumZ ((fun r => ServerJs.endNow r - ServerJs.start r)
                     <$> ServerJs.timedRequests evs) in
  ServerJs.requests snap = n /\
  ServerJs.avgResponseMs snap =
    (if n =? 0 then 0 else Math_round (inject_Z spent / inject_Z n)%Q) /\
  (if bool_decide (ServerJs.timedRequests evs = [])
   then ServerJs.avgResponseMs snap = 0 else True).
Proof.
  intros Hrun Hsnap n spent. subst n spent.
  destruct (legacy_run_totals evs _ _ Hrun) as [Hc Ht].
  cbn [ServerJs.boot ServerJs.state ServerJs.initial ServerJs.requestCount
       ServerJs.totalResponseTime] in Hc, Ht.
  rewrite !Z.add_0_l in Hc, Ht.
  unfold ServerJs.getSnapshot in Hsnap.
  destruct (ServerJs.cpuUsage _ _) as [[c l]|]; [|discriminate].
  injection Hsnap as <- _.
  cbn [ServerJs.requests ServerJs.avgResponseMs]. rewrite Hc, Ht.
  split; [reflexivity|]. split; [reflexivity|].
  case_bool_decide as Hnone; [|exact I]. rewrite Hnone. cbn [fmap list_fmap].
  destruct (Z.of_nat (length (ServerJs.allRequests evs)) =? 0) eqn:E0;
    [reflexivity|].
  apply Z.eqb_neq in E0.
  rewrite Math_round_div by lia. cbn [sumZ foldr].
  apply Z.div_small. lia.
Qed.

Lemma legacy_average_counts_only_not_found_witness :
  let evs := [ServerJs.Incoming (ServerJs.mkRequest "/" 1000 1000 1040);
              ServerJs.Incoming (ServerJs.mkRequest "/events" 2000 2000 2001);
              ServerJs.TimerFire 0
                (ServerJs.mkHost 4000 Sample.cores 50000000 40 4 4);
              ServerJs.Incoming (ServerJs.mkRequest "/x" 5000 5000 5009)] in
  let h := ServerJs.mkHost 6000 Sample.cores 50000000 40 6 6 in
  exists s snap st,
    ServerJs.run (ServerJs.boot Sample.cores) evs = Some s /\
    ServerJs.getSnapshot h (ServerJs.state s) = Some (snap, st) /\
    ServerJs.requests snap = 3 /\ ServerJs.avgResponseMs snap = 3.
Proof.
  intros evs h.
  destruct (ServerJs.run (ServerJs.boot Sample.cores) evs) as [s|] eqn:Erun;
    [|vm_compute in Erun; discriminate Erun].
  destruct (ServerJs.getSnapshot h (ServerJs.state s)) as [[snap st]|] eqn:Es.
  - exists s, snap, st. split; [reflexivity|]. split; [exact Es|].
    destruct (legacy_average_counts_only_not_found Sample.cores evs s h snap st
                Erun Es) as (Hn & Ha & _).
    split; [exact Hn | exact Ha].
  - exfalso. vm_compute in Erun. injection Erun as <-.
    vm_compute in Es. discriminate Es.
Defined.

(** A request never stops the older server, and a timer tick stops it
    exactly when the stream is armed and the host reports more cores than
    the stored reading has: [cpuUsage] then throws inside the interval
    callback. *)
Theorem legacy_tick_crashes_iff
    (s : ServerJs.Server) (i : nat) (h : ServerJs.Host)
    (r : ServerJs.Request) (j : nat) :
  (ServerJs.step s (ServerJs.TimerFire i h) = None <->
   i ∈ ServerJs.timers s /\
   (length (ServerJs.lastCpu (ServerJs.state s))
    < length (ServerJs.cpus h))%nat) /\
  ServerJs.step s (ServerJs.Incoming r) <> None /\
  ServerJs.step s (ServerJs.Close j) <> None.
Proof.
  split; [|split].
  - cbn [ServerJs.step]. case_bool_decide as Hi.
    + unfold ServerJs.getSnapshot, ServerJs.cpuUsage.
      destruct (Nat.le_gt_cases (length (ServerJs.cpus h))
                  (length (ServerJs.lastCpu (ServerJs.state s))))
        as [Hle|Hgt].
      * rewrite legacy_cpuForEach_covered by (cbn; lia).
        destruct (Dashboard.cpuForEach _ _ _ _).
        split; [discriminate | intros [_ Hlt]; lia].
      * destruct (ServerJs.cpus h) as [|c rest] eqn:Ec;
          [cbn in Hgt; lia|].
        rewrite legacy_cpuForEach_short by (cbn [length] in *; lia).
        split; [intros _; split; [exact Hi | exact Hgt] | reflexivity].
    + split; [discriminate | intros [Hin _]; contradiction].
  - discriminate.
  - cbn [ServerJs.step]. case_bool_decide; discriminate.
Qed.

(** ** What the snapshots sent to the page can show *)

Lemma prune_length (w now : Z) (arr : list Z) :
  (length (prune w now arr) <= length arr)%nat.
Proof. unfold prune. apply List.filter_length_le. Qed.

Lemma pruned_within (w now n : Z) (arr : list Z) :
  Z.of_nat (length arr) <= n -> Z.of_nat (length (prune w now arr)) <= n.
Proof. pose proof (prune_length w now arr). lia. Qed.

Lemma snoc_within (n x : Z) (arr : list Z) :
  Z.of_nat (length arr) <= n -> Z.of_nat (length (arr ++ [x])) <= n + 1.
Proof. rewrite length_app. cbn [length]. lia. Qed.

Lemma step_windowsWithinTotal (s : Server) (ev : Event) :
  windowsWithinTotal s -> windowsWithinTotal (step s ev).
Proof.
  unfold windowsWithinTotal. intros [Hm Hh].
  destruct ev as [r | i e len | i | n]; cbn [step];
    [ unfold handler; repeat case_bool_decide; try congruence
    | case_bool_decide
    | case_bool_decide
    | idtac ];
    unfold sendData; snap_split; cbn -[prune];
    split; repeat apply pruned_within; try apply snoc_within; assumption.
Qed.

(** No snapshot reports more requests in the last minute or the last hour
    than in total. *)
Theorem rates_within_total (cpus0 : list Cpu) (evs : list Event) (e : Env) :
  let snap := (getSnapshot e (metrics (run (boot cpus0) evs))).1 in
  0 <= Snap.rpm snap <= Snap.totalRequests snap /\
  0 <= Snap.rph snap <= Snap.totalRequests snap.
Proof.
  intros snap. subst snap.
  assert (windowsWithinTotal (run (boot cpus0) evs)) as [Hm Hh].
  { apply (run_invariant windowsWithinTotal).
    - intros s ev. apply step_windowsWithinTotal.
    - unfold windowsWithinTotal. cbn. lia. }
  destruct (snapshot_windows e (metrics (run (boot cpus0) evs))) as [-> ->].
  destruct (snapshot_rates e (metrics (run (boot cpus0) evs)))
    as (_ & _ & _ & -> & _).
  pose proof (prune_length 60000 (cleanupNow e)
                (lastMinuteRequests (metrics (run (boot cpus0) evs)))).
  pose proof (prune_length 3600000 (cleanupNow e)
                (lastHourRequests (metrics (run (boot cpus0) evs)))).
  split; lia.
Qed.

Lemma step_streamsCounted (s : Server) (ev : Event) :
  streamsCounted s -> streamsCounted (step s ev).
Proof.
  unfold streamsCounted. intros (Hn & Ht & Hw).
  destruct ev as [r | i e len | i | n]; cbn [step];
    [| | | split; [exact Hn | split; [exact Ht | exact Hw]]].
  - unfold handler. repeat case_bool_decide; try congruence;
      unfold sendData;
      try (snap_split; cbn; (split; [lia | split; [exact Ht | exact Hw]])).
    destruct (snapshot_rates (env r)
                (setActiveConnections
                   (activeConnections (onRequest r (metrics s)) + 1)
                   (onRequest r (metrics s)))) as (_ & _ & _ & Htot & _).
    pose proof (getSnapshot_snd (env r)
                  (setActiveConnections
                     (activeConnections (onRequest r (metrics s)) + 1)
                     (onRequest r (metrics s)))) as Hsnd.
    destruct (getSnapshot _ _) as [snap m']. cbn [fst snd] in Htot, Hsnd.
    subst m'. cbn in Htot |- *. split; [lia|]. split.
    + intros i Hi. apply elem_of_union in Hi as [Hi|Hi].
      * apply elem_of_singleton in Hi. lia.
      * apply Ht in Hi. lia.
    + apply Forall_app. split; [exact Hw|].
      constructor; [cbn; lia | constructor].
  - case_bool_decide as Hi; [|split; [exact Hn | split; [exact Ht | exact Hw]]].
    unfold sendData.
    destruct (snapshot_rates e (metrics s)) as (_ & _ & _ & Htot & _).
    pose proof (getSnapshot_snd e (metrics s)) as Hsnd.
    destruct (getSnapshot e (metrics s)) as [snap m'].
    cbn [fst snd] in Htot, Hsnd. subst m'. cbn.
    apply Ht in Hi. split; [exact Hn|]. split; [exact Ht|].
    apply Forall_app. split; [exact Hw|].
    constructor; [cbn; lia | constructor].
  - case_bool_decide; [|split; [exact Hn | split; [exact Ht | exact Hw]]].
    cbn. split; [exact Hn|]. split; [|exact Hw].
    intros j Hj. apply elem_of_difference in Hj as [Hj _]. apply Ht, Hj.
Qed.

(** Every snapshot the server writes to an event stream shows at least
    one request, and no more streams are opened than requests counted:
    a snapshot with zero requests never reaches the page. *)
Theorem streamed_snapshots_count_requests
    (cpus0 : list Cpu) (evs : list Event) :
  let s := run (boot cpus0) evs in
  Forall (fun p => 1 <= Snap.totalRequests p.2) (written s) /\
  Z.of_nat (streams evs) <= requestCount (metrics s).
Proof.
  intros s.
  assert (streamsCounted s) as (Hn & _ & Hw).
  { subst s. apply (run_invariant streamsCounted).
    - intros s ev. apply step_streamsCounted.
    - unfold streamsCounted. cbn. split; [lia|]. split; [|constructor].
      intros i Hi. apply elem_of_empty in Hi. destruct Hi. }
  split; [exact Hw|].
  subst s. rewrite run_nextStream in Hn. exact Hn.
Qed.
